(** * The copy-trading backtest simulator of [research/backtest_strategy.py]

    A shallow embedding of [BacktestEngine] (its constructor, [should_copy],
    [execute_trade] and [run_backtest]) and of the functions of the script
    around it ([load_trades], [print_results] and [main]), with the
    properties its specification states about the engine and further
    properties of the code.

    Numbers are the interpreter's: a Python [float] is an IEEE-754 binary64
    value, here a primitive [float]; a Python [int] is a [Z].  The two
    dictionaries of the engine are finite maps keyed by strings (the order
    in which a dictionary lists its keys is not modelled: where the code
    iterates over one, any order is allowed).  Methods mutate
    [self] and draw from NumPy's global generator, and a [*] on a cell that
    holds no number raises: they are actions of a state-and-exception monad
    over the engine and the generator. *)

From Stdlib Require Import ZArith String List Floats.
From Stdlib Require Import Sorting.Permutation Sorting.Sorted.
From stdpp Require Import base option list gmap strings.

(** * Part I: the program *)

(** ** Python values and built-ins *)

(** What a cell of a row can hold.  The numeric columns are declared [float]
    by [should_copy] and [execute_trade]; a row read from a table with a NULL
    or a text in such a column holds [None] or a [str] there instead. *)
Inductive value :=
| VFloat (x : float)
| VNone
| VStr (s : string).

Definition is_float (v : value) : bool :=
  match v with VFloat _ => true | _ => false end.

(** A number that is either an [int] or a [float] (the result dictionary
    mixes the two: [0] or a quotient, [0] or scaled shares). *)
Inductive number :=
| Int (z : Z)
| Float (x : float).

Inductive exn :=
| TypeError
| ZeroDivisionError.

Inductive outcome (A : Type) :=
| Ok (a : A)
| Raise (e : exn).
Arguments Ok {A} a.
Arguments Raise {A} e.

(** [a > b] on floats: IEEE [>] is [<] with the operands swapped (both are
    false when an operand is NaN). *)
Definition gtb (a b : float) : bool := (b <? a)%float.

(** An integer as an unrounded binary number [m * 2^0]. *)
Definition SF_of_Z (z : Z) : spec_float :=
  match z with
  | Z0 => S754_zero false
  | Zpos p => S754_finite false p 0
  | Zneg p => S754_finite true p 0
  end.

(** [float(z)], correctly rounded. *)
Definition float_of_int (z : Z) : float :=
  SF2Prim (SFdiv prec emax (SF_of_Z z) (SF_of_Z 1)).

(** [a / b] on two [int]s: the correctly rounded quotient, or
    [ZeroDivisionError]. *)
Definition int_truediv (a b : Z) : outcome float :=
  if (b =? 0)%Z then Raise ZeroDivisionError
  else Ok (SF2Prim (SFdiv prec emax (SF_of_Z a) (SF_of_Z b))).

(** [v * x] for a cell [v] and a float [x]: [None * x] and [str * x] raise
    [TypeError]. *)
Definition mul_cell (v : value) (x : float) : outcome float :=
  match v with
  | VFloat y => Ok (y * x)%float
  | VNone | VStr _ => Raise TypeError
  end.

(** The integer nearest to [n / d] for [d > 0], ties to the even one. *)
Definition round_half_even (n d : Z) : Z :=
  let q := (n / d)%Z in
  match (2 * (n mod d) ?= d)%Z with
  | Lt => q
  | Gt => (q + 1)%Z
  | Eq => if Z.even q then q else (q + 1)%Z
  end.

(** [round(x, ndigits)] on a float, for [ndigits >= 0] as at both call
    sites: infinities, NaN, zeros and integral values round to themselves;
    otherwise the exact value of [x] is rounded half-even to [ndigits]
    decimals and the decimal [q / 10^ndigits] is read back correctly
    rounded. *)
Definition py_round (x : float) (ndigits : nat) : float :=
  match Prim2SF x with
  | S754_finite s m e =>
      if (0 <=? e)%Z then x
      else
        let p := (10 ^ Z.of_nat ndigits)%Z in
        let q := round_half_even (Zpos m * p) (2 ^ (- e)) in
        let r := SFdiv prec emax (SF_of_Z q) (SF_of_Z p) in
        SF2Prim (if s then SFopp r else r)
  | _ => x
  end.

(** [l[-n:]] for [n > 0]: the last [n] items of a list (all of it when it
    is shorter). *)
Definition last_items {A} (n : nat) (l : list A) : list A :=
  skipn (length l - n) l.

(** [token_id[:20] + "..."] *)
Definition short_token (token_id : string) : string :=
  substring 0 20 token_id +:+ "...".

(** [abs(p) > 0.0001]; the literal is the binary64 nearest to [0.0001]. *)
Definition is_open (p : float) : bool := gtb (abs p) 0x1.a36e2eb1c432dp-14%float.

(** ** The engine, the generator and the monad *)

Record BacktestEngine := mkEngine {
  scale_ratio : float;
  min_shares : float;
  max_position_usd : float;
  copy_probability : float;
  positions : gmap string float;
  trades_executed : Z;
  trades_skipped : Z;
  total_volume_usd : float;
  entry_prices : gmap string (list (float * value));
}.

Definition set_positions (e : BacktestEngine) (v : gmap string float) :=
  mkEngine (scale_ratio e) (min_shares e) (max_position_usd e)
    (copy_probability e) v (trades_executed e) (trades_skipped e)
    (total_volume_usd e) (entry_prices e).

Definition set_trades_executed (e : BacktestEngine) (v : Z) :=
  mkEngine (scale_ratio e) (min_shares e) (max_position_usd e)
    (copy_probability e) (positions e) v (trades_skipped e)
    (total_volume_usd e) (entry_prices e).

Definition set_trades_skipped (e : BacktestEngine) (v : Z) :=
  mkEngine (scale_ratio e) (min_shares e) (max_position_usd e)
    (copy_probability e) (positions e) (trades_executed e) v
    (total_volume_usd e) (entry_prices e).

Definition set_total_volume_usd (e : BacktestEngine) (v : float) :=
  mkEngine (scale_ratio e) (min_shares e) (max_position_usd e)
    (copy_probability e) (positions e) (trades_executed e) (trades_skipped e)
    v (entry_prices e).

Definition set_entry_prices (e : BacktestEngine)
    (v : gmap string (list (float * value))) :=
  mkEngine (scale_ratio e) (min_shares e) (max_position_usd e)
    (copy_probability e) (positions e) (trades_executed e) (trades_skipped e)
    (total_volume_usd e) v.

(** NumPy's global generator: the samples it is going to return, and how
    many of them [np.random.random()] has handed out. *)
Record Generator := mkGenerator {
  samples : nat → float;
  drawn : nat;
}.

Record World := mkWorld {
  self : BacktestEngine;
  np_random : Generator;
}.

Definition Py (A : Type) : Type := World → outcome A * World.

#[global] Instance Py_ret : MRet Py := λ A a w, (Ok a, w).
#[global] Instance Py_bind : MBind Py := λ A B f m w,
  match m w with
  | (Ok a, w') => f a w'
  | (Raise e, w') => (Raise e, w')
  end.

Definition lift {A} (o : outcome A) : Py A := λ w, (o, w).
Definition get_self : Py BacktestEngine := λ w, (Ok (self w), w).
Definition modify_self (f : BacktestEngine → BacktestEngine) : Py unit :=
  λ w, (Ok tt, mkWorld (f (self w)) (np_random w)).

(** [np.random.random()] *)
Definition np_random_random : Py float := λ w,
  let g := np_random w in
  (Ok (samples g (drawn g)),
   mkWorld (self w) (mkGenerator (samples g) (S (drawn g)))).

(** The world of an engine in front of a generator. *)
Definition start (e : BacktestEngine) (g : Generator) : World := mkWorld e g.

(** ** Messages *)

(** The strings [should_copy] returns and [run_backtest] logs, with the
    values their f-strings interpolate. *)
Inductive message :=
| COPY
| EXECUTED
| SKIP_shares (our_shares min_shares : float)
| SKIP_usd (scaled_usd max_position_usd : float)
| SKIP_probability (percent : float).

(** ** [BacktestEngine] *)

Definition BacktestEngine__init__
    (scale_ratio min_shares max_position_usd copy_probability : float)
  : outcome BacktestEngine :=
  Ok {| scale_ratio := scale_ratio;
        min_shares := min_shares;
        max_position_usd := max_position_usd;
        copy_probability := copy_probability;
        positions := ∅;
        trades_executed := 0;
        trades_skipped := 0;
        total_volume_usd := 0;
        entry_prices := ∅ |}.

Definition should_copy (whale_shares whale_usd : value) : Py (bool * message) :=
  e ← get_self;
  our_shares ← lift (mul_cell whale_shares (scale_ratio e));
  if (our_shares <? min_shares e)%float
  then mret (false, SKIP_shares our_shares (min_shares e))
  else
    scaled_usd ← lift (mul_cell whale_usd (scale_ratio e));
    if gtb scaled_usd (max_position_usd e)
    then mret (false, SKIP_usd scaled_usd (max_position_usd e))
    else
      sample ← np_random_random;
      if gtb sample (copy_probability e)
      then mret (false, SKIP_probability (copy_probability e * 100)%float)
      else mret (true, COPY).

(** [self.positions.get(token_id, 0)] *)
Definition position_of (e : BacktestEngine) (token_id : string) : float :=
  default 0%float (positions e !! token_id).

Definition execute_trade (token_id side : string) (shares price usd : value)
  : Py unit :=
  e ← get_self;
  scaled_shares ← lift (mul_cell shares (scale_ratio e));
  scaled_usd ← lift (mul_cell usd (scale_ratio e));
  _ ← (if String.eqb side "BUY" then
         _ ← modify_self (λ e,
               set_positions e
                 (<[token_id := (position_of e token_id + scaled_shares)%float]>
                    (positions e)));
         modify_self (λ e,
           set_entry_prices e
             (<[token_id := default [] (entry_prices e !! token_id)
                              ++ [(scaled_shares, price)]]> (entry_prices e)))
       else
         modify_self (λ e,
           set_positions e
             (<[token_id := (position_of e token_id - scaled_shares)%float]>
                (positions e))));
  _ ← modify_self (λ e, set_trades_executed e (trades_executed e + 1));
  modify_self (λ e,
    set_total_volume_usd e (total_volume_usd e + scaled_usd)%float).

(** ** Rows, log entries and the result *)

Module Row.
(** One row of [trades_df], with the columns [run_backtest] reads. *)
Record t := mk {
  timestamp_ms : Z;
  token_id : string;
  side : string;
  whale_shares : value;
  whale_usd : value;
  whale_price : value;
}.

(** The two cells the engine multiplies hold floats. *)
Definition numeric (r : t) : bool :=
  is_float (whale_shares r) && is_float (whale_usd r).
End Row.

Module Entry.
(** One dictionary of [execution_log]. *)
Record t := mk {
  timestamp_ms : Z;
  token_id : string;
  side : string;
  whale_shares : value;
  our_shares : number;
  price : value;
  action : message;
}.
End Entry.

Module Result.
(** The dictionary [run_backtest] returns, key by key. *)
Record t := mk {
  total_whale_trades : Z;
  trades_executed : Z;
  trades_skipped : Z;
  execution_rate : number;
  total_volume_usd : float;
  open_positions : Z;
  positions : gmap string float;
  strategy_params : float * float * float * float;
  execution_log : list Entry.t;
}.
End Result.

(** [trades_df.sort_values("timestamp_ms")] with pandas' default sort kind.
    pandas documents the default ([quicksort]) as not stable: the frame
    comes back as a rearrangement of its rows in ascending timestamp order,
    and nothing more is promised about rows that share a timestamp. *)
Class Pandas := {
  sort_values : list Row.t → list Row.t;
  sort_values_perm : ∀ df, Permutation (sort_values df) df;
  sort_values_sorted : ∀ df,
    StronglySorted (λ a b, (Row.timestamp_ms a <= Row.timestamp_ms b)%Z)
      (sort_values df);
}.

(** ** [run_backtest] *)

(** The body of the [for] loop, for one row. *)
Definition loop_body (row : Row.t) (execution_log : list Entry.t)
  : Py (list Entry.t) :=
  let whale_shares := Row.whale_shares row in
  let whale_usd := Row.whale_usd row in
  let whale_price := Row.whale_price row in
  let token_id := Row.token_id row in
  let side := Row.side row in
  '(copy, reason) ← should_copy whale_shares whale_usd;
  if copy : bool then
    _ ← execute_trade token_id side whale_shares whale_price whale_usd;
    e ← get_self;
    our_shares ← lift (mul_cell whale_shares (scale_ratio e));
    mret (execution_log ++
          [Entry.mk (Row.timestamp_ms row) (short_token token_id) side
             whale_shares (Float our_shares) whale_price EXECUTED])
  else
    _ ← modify_self (λ e, set_trades_skipped e (trades_skipped e + 1));
    mret (execution_log ++
          [Entry.mk (Row.timestamp_ms row) (short_token token_id) side
             whale_shares (Int 0) whale_price reason]).

(** The [for] loop over the rows of the sorted frame. *)
Fixpoint for_rows (rows : list Row.t) (execution_log : list Entry.t)
  : Py (list Entry.t) :=
  match rows with
  | [] => mret execution_log
  | row :: rest =>
      execution_log ← loop_body row execution_log;
      for_rows rest execution_log
  end.

(** The dictionary [run_backtest] returns, from the engine, the number of
    rows and the log. *)
Definition summary (e : BacktestEngine) (n : Z) (log : list Entry.t)
  : outcome Result.t :=
  match
    (if (0 <? n)%Z then
       match int_truediv (trades_executed e) n with
       | Ok q => Ok (Float (q * 100)%float)
       | Raise x => Raise x
       end
     else Ok (Int 0))
  with
  | Raise x => Raise x
  | Ok rate =>
      Ok {| Result.total_whale_trades := n;
            Result.trades_executed := trades_executed e;
            Result.trades_skipped := trades_skipped e;
            Result.execution_rate := rate;
            Result.total_volume_usd := py_round (total_volume_usd e) 2;
            Result.open_positions :=
              Z.of_nat (length (List.filter is_open
                                  (snd <$> map_to_list (positions e))));
            Result.positions :=
              (λ v, py_round v 4)
                <$> filter (λ kv, Is_true (is_open kv.2)) (positions e);
            Result.strategy_params :=
              (scale_ratio e, min_shares e, max_position_usd e,
               copy_probability e);
            Result.execution_log := last_items 20 log |}
  end.

Definition run_backtest `{Pandas} (trades_df : list Row.t) : Py Result.t :=
  let trades_df := sort_values trades_df in
  execution_log ← for_rows trades_df [];
  e ← get_self;
  lift (summary e (Z.of_nat (length trades_df)) execution_log).

(** ** [load_trades], [print_results] and [main] *)

(** What the script reaches outside of itself: the file system, the clock
    and the database. *)
Class Outside := {
  (** [str(Path(p))] *)
  path_str : string → string;
  (** [Path(p).exists()] *)
  path_exists : string → bool;
  (** [int((datetime.now() - timedelta(days=days)).timestamp() * 1000)] *)
  since_ts : Z → Z;
  (** [pd.read_sql_query(query, sqlite3.connect(db_path), params=params)] *)
  read_sql_query : string → string → list Z → list Row.t;
}.

(** [if days:] on an optional [int]: [None] and [0] are false. *)
Definition truthy (days : option Z) : bool :=
  match days with
  | None | Some 0%Z => false
  | Some _ => true
  end.

(** The query and the parameters [load_trades] hands to the database. *)
Definition load_trades_query `{Outside} (days : option Z) : string * list Z :=
  let query := "SELECT * FROM trades" in
  let params := [] in
  let '(query, params) :=
    match days with
    | Some d =>
        if truthy days
        then (query +:+ " WHERE timestamp_ms >= ?", params ++ [since_ts d])
        else (query, params)
    | None => (query, params)
    end in
  let query := query +:+ " ORDER BY timestamp_ms ASC" in
  (query, params).

Definition load_trades `{Outside} (db_path : string) (days : option Z)
  : list Row.t :=
  let '(query, params) := load_trades_query days in
  read_sql_query db_path query params.

(** The number of [?] placeholders (character 63) of a query. *)
Fixpoint placeholders (query : string) : nat :=
  match query with
  | EmptyString => 0
  | String c rest =>
      (if Ascii.eqb c (Ascii.ascii_of_nat 63) then 1 else 0)
      + placeholders rest
  end.

(** The order in which a dictionary of positions lists its items. *)
Class Dict := {
  items : gmap string float → list (string * float);
  items_perm : ∀ m, Permutation (items m) (map_to_list m);
}.

(** The lines [print_results] prints, with the values they interpolate. *)
Inductive line :=
| Line_rule                                  (* 60 times [=] *)
| Line_title                                 (* BACKTEST RESULTS *)
| Line_strategy_parameters
| Line_scale_ratio (x : float)               (* [:.2f] *)
| Line_min_shares (x : float)
| Line_max_position (x : float)
| Line_copy_probability (percent : float)    (* [:.0f] *)
| Line_execution_stats
| Line_whale_trades (n : Z)
| Line_executed (n : Z)
| Line_skipped (n : Z)
| Line_execution_rate (r : number)           (* [:.1f] *)
| Line_volume
| Line_total_usd (x : float)                 (* [:,.2f] *)
| Line_positions
| Line_open_positions (n : Z)
| Line_position_details
| Line_position (token_short : string) (shares : float)  (* [:,.4f] *)
| Line_recent_trades
| Line_trade_executed (side : string) (our_shares : number) (price : float)
| Line_trade_skipped (side : string) (action : message).

(** What [format(v, ".4f")] raises on a cell that holds no number. *)
Inductive format_error :=
| Format_TypeError        (* [None] *)
| Format_ValueError.      (* a [str] *)

(** [f"{v:.4f}"]: the float to print, or the error. *)
Definition format_f (v : value) : float + format_error :=
  match v with
  | VFloat x => inl x
  | VNone => inr Format_TypeError
  | VStr _ => inr Format_ValueError
  end.

(** The line of one trade of the log. *)
Definition trade_line (trade : Entry.t) : line + format_error :=
  match Entry.action trade with
  | EXECUTED =>
      match format_f (Entry.price trade) with
      | inl p =>
          inl (Line_trade_executed (Entry.side trade)
                 (Entry.our_shares trade) p)
      | inr e => inr e
      end
  | action => inl (Line_trade_skipped (Entry.side trade) action)
  end.

(** The loop over the trades: the lines printed, and the error that stopped
    it if one did. *)
Fixpoint trade_lines (trades : list Entry.t) : list line * option format_error :=
  match trades with
  | [] => ([], None)
  | trade :: rest =>
      match trade_line trade with
      | inr e => ([], Some e)
      | inl l => let '(ls, err) := trade_lines rest in (l :: ls, err)
      end
  end.

(** The lines every call prints. *)
Definition header_lines (results : Result.t) : list line :=
  let '(scale, min, max, prob) := Result.strategy_params results in
  [ Line_rule; Line_title; Line_rule;
    Line_strategy_parameters;
    Line_scale_ratio scale; Line_min_shares min; Line_max_position max;
    Line_copy_probability (prob * 100)%float;
    Line_execution_stats;
    Line_whale_trades (Result.total_whale_trades results);
    Line_executed (Result.trades_executed results);
    Line_skipped (Result.trades_skipped results);
    Line_execution_rate (Result.execution_rate results);
    Line_volume;
    Line_total_usd (Result.total_volume_usd results);
    Line_positions;
    Line_open_positions (Result.open_positions results) ].

(** The position details: the first ten items of the dictionary. *)
Definition position_lines `{Dict} (results : Result.t) (verbose : bool)
  : list line :=
  if verbose && negb (bool_decide (Result.positions results = ∅))
  then Line_position_details
       :: ((λ kv : string * float, Line_position (short_token kv.1) kv.2)
             <$> take 10 (items (Result.positions results)))
  else [].

Definition print_results `{Dict} (results : Result.t) (verbose : bool)
  : list line * option format_error :=
  let head := header_lines results ++ position_lines results verbose in
  match verbose, Result.execution_log results with
  | true, _ :: _ =>
      let '(ls, err) :=
        trade_lines (last_items 10 (Result.execution_log results)) in
      (head ++ Line_recent_trades :: ls, err)
  | _, _ => (head, None)
  end.

Module Args.
(** The parsed command line. *)
Record t := mk {
  db : string;
  days : option Z;
  scale : float;
  min_shares : float;
  max_position : float;
  probability : float;
  format : string;
  verbose : bool;
}.
End Args.

(** What [main] writes. *)
Inductive emitted :=
| Stderr_database_not_found (db_path : string)
| Stderr_run_the_bot_first
| Stderr_loading (db_path : string)
| Stderr_loaded (n : nat)
| Stderr_no_trades
| Stderr_running
| Stdout_json (results : Result.t) (with_execution_log : bool)
| Stdout (l : line).

(** How [main] ends. *)
Inductive ending :=
| Returns
| SystemExit (code : Z)
| Uncaught (e : exn)
| Uncaught_format (e : format_error).

Definition main `{Pandas} `{Outside} `{Dict} (args : Args.t) (g : Generator)
  : list emitted * ending * Generator :=
  let db_path := path_str (Args.db args) in
  if negb (path_exists (Args.db args)) then
    ([Stderr_database_not_found db_path; Stderr_run_the_bot_first],
     SystemExit 1, g)
  else
    let df := load_trades db_path (Args.days args) in
    let err := [Stderr_loading db_path; Stderr_loaded (length df)] in
    match df with
    | [] => (err ++ [Stderr_no_trades], SystemExit 1, g)
    | _ :: _ =>
        match BacktestEngine__init__ (Args.scale args) (Args.min_shares args)
                (Args.max_position args) (Args.probability args) with
        | Raise x => (err, Uncaught x, g)
        | Ok engine =>
            let err := err ++ [Stderr_running] in
            match run_backtest df (start engine g) with
            | (Raise x, w) => (err, Uncaught x, np_random w)
            | (Ok results, w) =>
                if String.eqb (Args.format args) "json" then
                  (err ++ [Stdout_json results (Args.verbose args)],
                   Returns, np_random w)
                else
                  let '(ls, e) := print_results results (Args.verbose args) in
                  (err ++ (Stdout <$> ls),
                   match e with
                   | None => Returns
                   | Some x => Uncaught_format x
                   end,
                   np_random w)
            end
        end
    end.

(** The event goes to standard error. *)
Definition to_stderr (ev : emitted) : bool :=
  match ev with
  | Stdout_json _ _ | Stdout _ => false
  | _ => true
  end.

(** * Part II: the vocabulary of the specification *)

(** ** Insertion sort on the timestamp, to stand for [sort_values] *)

(** [before a b] says whether a row stamped [a] goes in front of a row
    stamped [b] that is already placed. *)
Fixpoint insert_row (before : Z → Z → bool) (r : Row.t) (l : list Row.t)
  : list Row.t :=
  match l with
  | [] => [r]
  | x :: l' =>
      if before (Row.timestamp_ms r) (Row.timestamp_ms x)
      then r :: l
      else x :: insert_row before r l'
  end.

Fixpoint insertion_sort (before : Z → Z → bool) (l : list Row.t)
  : list Row.t :=
  match l with
  | [] => []
  | r :: l' => insert_row before r (insertion_sort before l')
  end.

(** ** The decision policy *)

Inductive reason := ACCEPTED | MIN_SHARES | MAX_POSITION | PROBABILITY | MALFORMED.

Record Decision := mkDecision { accept : bool; why : reason }.

(** [DecisionPolicy.evaluate] as the specification words it: the rules in
    their order, on the scaled values, with the sample the randomness source
    would hand out next; the second component counts the samples drawn. *)
Definition evaluate
    (observed_shares observed_usd : float)
    (scale_ratio min_shares max_position_usd copy_probability : float)
    (sample : float) : Decision * nat :=
  let scaled_shares := (observed_shares * scale_ratio)%float in
  if (scaled_shares <? min_shares)%float then (mkDecision false MIN_SHARES, 0)
  else
    let scaled_usd := (observed_usd * scale_ratio)%float in
    if gtb scaled_usd max_position_usd then (mkDecision false MAX_POSITION, 0)
    else if gtb sample copy_probability then (mkDecision false PROBABILITY, 1)
    else (mkDecision true ACCEPTED, 1).

(** The rule a message of [should_copy] stands for. *)
Definition reason_of (m : message) : reason :=
  match m with
  | COPY | EXECUTED => ACCEPTED
  | SKIP_shares _ _ => MIN_SHARES
  | SKIP_usd _ _ => MAX_POSITION
  | SKIP_probability _ => PROBABILITY
  end.

(** The world after [n] more draws. *)
Definition advance (n : nat) (w : World) : World :=
  mkWorld (self w)
    (mkGenerator (samples (np_random w)) (n + drawn (np_random w))).

(** The decision [evaluate] takes for shares [s] and USD [u] in a world. *)
Definition verdict (s u : float) (w : World) : Decision * nat :=
  let e := self w in
  evaluate s u (scale_ratio e) (min_shares e) (max_position_usd e)
    (copy_probability e) (samples (np_random w) (drawn (np_random w))).

(** The four parameters of an engine. *)
Definition params (e : BacktestEngine) : float * float * float * float :=
  (scale_ratio e, min_shares e, max_position_usd e, copy_probability e).

(** ** The ledger read off the log *)

(** The entry is a copied trade. *)
Definition executed (en : Entry.t) : bool :=
  match Entry.action en with EXECUTED => true | _ => false end.

(** The float a logged number stands for. *)
Definition to_float (n : number) : float :=
  match n with Int z => float_of_int z | Float x => x end.

(** A position after a trade of [x] shares: [BUY] adds, anything else
    subtracts. *)
Definition apply_side (side : string) (p x : float) : float :=
  if String.eqb side "BUY" then (p + x)%float else (p - x)%float.

(** The sum [acc] after the entry [en]: an executed entry logged under
    [key] moves it by its copied shares, any other entry leaves it. *)
Definition add_entry (key : string) (acc : float) (en : Entry.t) : float :=
  if executed en && String.eqb (Entry.token_id en) key
  then apply_side (Entry.side en) acc (to_float (Entry.our_shares en))
  else acc.

(** The signed sum, in log order and starting from [0], of the copied shares
    of the executed entries logged under the key [key]. *)
Definition signed_sum (key : string) (log : list Entry.t) : float :=
  fold_left (add_entry key) log 0%float.

(** The sum [acc] after one pass of the loop, over the row [ev.1] for which
    it appended the entry [ev.2]: an executed entry of an event of the token
    [t] moves it by its copied shares, any other entry leaves it. *)
Definition add_event (t : string) (acc : float) (ev : Row.t * Entry.t) : float :=
  if executed ev.2 && String.eqb (Row.token_id ev.1) t
  then apply_side (Entry.side ev.2) acc (to_float (Entry.our_shares ev.2))
  else acc.

(** The signed sum, in order and starting from [0], of the copied shares of
    the executed entries of the log [log] that are for the token [t]: the
    entries the loop appended for the events of [rows] that trade [t]. *)
Definition signed_sum_for (t : string) (rows : list Row.t)
    (log : list Entry.t) : float :=
  fold_left (add_event t) (zip rows log) 0%float.

(** What [run_backtest] copies from the row into the dictionary it appends,
    whatever the decision. *)
Definition logged_as (r : Row.t) (en : Entry.t) : Prop :=
  Entry.timestamp_ms en = Row.timestamp_ms r
  ∧ Entry.token_id en = short_token (Row.token_id r)
  ∧ Entry.side en = Row.side r
  ∧ Entry.whale_shares en = Row.whale_shares r
  ∧ Entry.price en = Row.whale_price r.

(** ** One pass of the loop, and a run of passes *)

(** What a pass from [w] to [w'] that logged [en] for the row [r], of
    shares [s] and USD [u], did. *)
Record pass (r : Row.t) (s u : float) (w w' : World) (en : Entry.t) : Prop := {
  pass_params : params (self w') = params (self w);
  pass_generator : np_random w' = np_random (advance (verdict s u w).2 w);
  pass_verdict : executed en = accept (verdict s u w).1;
  pass_logged : logged_as r en;
  pass_copied :
    executed en = true →
    Entry.our_shares en = Float (s * scale_ratio (self w))
    ∧ trades_executed (self w') = (trades_executed (self w) + 1)%Z
    ∧ trades_skipped (self w') = trades_skipped (self w)
    ∧ positions (self w') =
        <[Row.token_id r :=
            apply_side (Row.side r) (position_of (self w) (Row.token_id r))
              (s * scale_ratio (self w))]> (positions (self w));
  pass_skipped :
    executed en = false →
    Entry.our_shares en = Int 0
    ∧ trades_executed (self w') = trades_executed (self w)
    ∧ trades_skipped (self w') = (trades_skipped (self w) + 1)%Z
    ∧ positions (self w') = positions (self w)
    ∧ total_volume_usd (self w') = total_volume_usd (self w)
    ∧ entry_prices (self w') = entry_prices (self w);
}.

(** [replay w rows ens w']: passing over [rows] from [w] logs [ens], one
    entry per row, and ends in [w']. *)
Inductive replay : World → list Row.t → list Entry.t → World → Prop :=
| replay_nil w : replay w [] [] w
| replay_cons w r s u en w1 rows ens w2 :
    Row.whale_shares r = VFloat s →
    Row.whale_usd r = VFloat u →
    pass r s u w w1 en →
    replay w1 rows ens w2 →
    replay w (r :: rows) (en :: ens) w2.

(** ** Rows and frames the properties single out *)

(** The row holds no number in a cell that [should_copy] multiplies on its
    way to a decision: the shares, or the USD value when the scaled shares
    are not below [min_shares]. *)
Definition malformed_for (e : BacktestEngine) (r : Row.t) : bool :=
  match Row.whale_shares r with
  | VFloat s =>
      if (s * scale_ratio e <? min_shares e)%float then false
      else negb (is_float (Row.whale_usd r))
  | VNone | VStr _ => true
  end.

(** The shares of the row are not below [0]. *)
Definition size_not_negative (r : Row.t) : bool :=
  match Row.whale_shares r with
  | VFloat s => negb (s <? 0)%float
  | VNone | VStr _ => true
  end.

(** No row of the frame is logged under the key of the token [t] unless it
    trades [t] itself. *)
Definition keyed_apart (t : string) (rows : list Row.t) : bool :=
  forallb
    (λ r, implb (String.eqb (short_token (Row.token_id r)) (short_token t))
            (String.eqb (Row.token_id r) t))
    rows.

(** Timestamps strictly ascending along the frame. *)
Definition strictly_ascending (rows : list Row.t) : Prop :=
  StronglySorted (λ a b, (Row.timestamp_ms a < Row.timestamp_ms b)%Z) rows.

(** ** Sample data *)

Definition token_a : string := "79003893007240922565581139363959835619617307306268940540301817825959399270354".
Definition token_b : string := "38865488008932950700526030022928946208892757165833157506040011064447395822077".

(** A token that differs from [token_a] only after its 20th character. *)
Definition token_a' : string := "79003893007240922565770000000000000000000000000000000000000000000000000000001".

(** A generator that always returns [x]. *)
Definition constant_generator (x : float) : Generator := mkGenerator (λ _, x) 0.

Definition buy (t : Z) (token : string) (shares usd price : float) : Row.t :=
  Row.mk t token "BUY" (VFloat shares) (VFloat usd) (VFloat price).

Definition sell (t : Z) (token : string) (shares usd price : float) : Row.t :=
  Row.mk t token "SELL" (VFloat shares) (VFloat usd) (VFloat price).

Definition sample_feed : list Row.t :=
  [ buy 1 token_a 100 50 0.5; buy 2 token_b 5 5 1; sell 3 token_a 40 20 0.5 ].

(** [sample_feed] with the shares of its second event missing. *)
Definition malformed_feed : list Row.t :=
  [ buy 1 token_a 100 50 0.5;
    Row.mk 2 token_b "BUY" VNone (VFloat 5) (VFloat 1);
    sell 3 token_a 40 20 0.5 ].

(** Two buys of tokens that share their first 20 characters. *)
Definition twin_feed : list Row.t :=
  [ buy 1 token_a 100 50 0.5; buy 2 token_a' 100 50 0.5 ].

(** Two events with one timestamp. *)
Definition tied_feed : list Row.t :=
  [ buy 1 token_a 100 50 0.5; buy 1 token_b 100 50 0.5 ].

(** The engine the constructor builds (it never raises). *)
Definition engine (s m x p : float) : BacktestEngine :=
  match BacktestEngine__init__ s m x p with
  | Ok e => e
  | Raise _ => mkEngine s m x p ∅ 0 0 0 ∅
  end.

(** ** The audit of a pass: lots, volume and draws *)

(** The event reached the probability rule: it was executed or skipped on
    the sample. *)
Definition reached_gate (en : Entry.t) : bool :=
  match Entry.action en with
  | EXECUTED | SKIP_probability _ => true
  | COPY | SKIP_shares _ _ | SKIP_usd _ _ => false
  end.

(** Beyond [pass]: the lots, the volume and the draws of a pass from [w] to
    [w'] that logged [en] for the row [r], of shares [s] and USD [u]. *)
Record pass_ledger (r : Row.t) (s u : float) (w w' : World) (en : Entry.t)
  : Prop := {
  ledger_lots :
    entry_prices (self w') =
      if executed en && String.eqb (Row.side r) "BUY"
      then <[Row.token_id r :=
               default [] (entry_prices (self w) !! Row.token_id r)
               ++ [((s * scale_ratio (self w))%float, Row.whale_price r)]]>
             (entry_prices (self w))
      else entry_prices (self w);
  ledger_volume :
    total_volume_usd (self w') =
      if executed en
      then (total_volume_usd (self w) + u * scale_ratio (self w))%float
      else total_volume_usd (self w);
  ledger_drawn :
    drawn (np_random w') =
      (if reached_gate en then 1 else 0) + drawn (np_random w);
  ledger_samples : samples (np_random w') = samples (np_random w);
  ledger_reason : reason_of (Entry.action en) = why (verdict s u w).1;
}.

(** [audited w rows ens w']: [replay], with the ledger of every pass. *)
Inductive audited : World → list Row.t → list Entry.t → World → Prop :=
| audited_nil w : audited w [] [] w
| audited_cons w r s u en w1 rows ens w2 :
    Row.whale_shares r = VFloat s →
    Row.whale_usd r = VFloat u →
    pass r s u w w1 en →
    pass_ledger r s u w w1 en →
    audited w1 rows ens w2 →
    audited w (r :: rows) (en :: ens) w2.

(** The lots the events [rows], logged as [ens], leave for the token [t]:
    one per executed [BUY] of [t], in order. *)
Fixpoint lots_of (t : string) (scale : float)
    (rows : list Row.t) (ens : list Entry.t) : list (float * value) :=
  match rows, ens with
  | r :: rows, en :: ens =>
      (if executed en && String.eqb (Row.side r) "BUY"
          && String.eqb (Row.token_id r) t
       then match Row.whale_shares r with
            | VFloat s => [((s * scale)%float, Row.whale_price r)]
            | VNone | VStr _ => []
            end
       else [])
      ++ lots_of t scale rows ens
  | _, _ => []
  end.

(** [entry_prices.get(t)] for a token with the lots [l]: the key exists once
    there is a lot. *)
Definition lots_entry (l : list (float * value)) : option (list (float * value)) :=
  match l with [] => None | _ :: _ => Some l end.

(** The volume after the events [rows], logged as [ens], from [acc]: the
    scaled USD of every executed event, added in order. *)
Fixpoint volume_of (scale : float) (acc : float)
    (rows : list Row.t) (ens : list Entry.t) : float :=
  match rows, ens with
  | r :: rows, en :: ens =>
      volume_of scale
        (if executed en
         then match Row.whale_usd r with
              | VFloat u => (acc + u * scale)%float
              | VNone | VStr _ => acc
              end
         else acc)
        rows ens
  | _, _ => acc
  end.

(** ** Sample disks and command lines *)

(** A disk without a database, and one whose database holds [sample_feed]. *)
Definition no_database : Outside :=
  {| path_str := id; path_exists := λ _, false; since_ts := λ d, (0 - d)%Z;
     read_sql_query := λ _ _ _, [] |}.

Definition sample_database : Outside :=
  {| path_str := id; path_exists := λ _, true; since_ts := λ d, (0 - d)%Z;
     read_sql_query := λ _ _ _, sample_feed |}.

(** A database that holds one event, a [BUY] whose price is missing. *)
Definition unpriced_database : Outside :=
  {| path_str := id; path_exists := λ _, true; since_ts := λ d, (0 - d)%Z;
     read_sql_query := λ _ _ _,
       [Row.mk 1 token_a "BUY" (VFloat 100) (VFloat 50) VNone] |}.

Definition default_args (format : string) (verbose : bool) : Args.t :=
  Args.mk "../trades.db" None 1 10 1000 1 format verbose.

(** * Part III: lemmas *)

(** ** Two sorts that meet the contract of [sort_values] *)

Section InsertionSort.
Variable before : Z → Z → bool.
Hypothesis before_true : ∀ a b, before a b = true → (a <= b)%Z.
Hypothesis before_false : ∀ a b, before a b = false → (b <= a)%Z.

Lemma insert_row_perm r l : Permutation (insert_row before r l) (r :: l).
Proof.
  induction l as [|x l IH]; simpl; [reflexivity|].
  destruct (before _ _); [reflexivity|].
  rewrite IH. apply perm_swap.
Qed.

Lemma insertion_sort_perm l : Permutation (insertion_sort before l) l.
Proof.
  induction l as [|r l IH]; simpl; [constructor|].
  rewrite insert_row_perm. by constructor.
Qed.

Let ts_le (a b : Row.t) : Prop := (Row.timestamp_ms a <= Row.timestamp_ms b)%Z.

Lemma insert_row_sorted r l :
  StronglySorted ts_le l → StronglySorted ts_le (insert_row before r l).
Proof.
  induction 1 as [|x l Hs IH Hx]; simpl.
  - repeat constructor.
  - destruct (before _ _) eqn:E.
    + apply before_true in E. constructor; [by constructor|].
      constructor; [exact E|].
      eapply Forall_impl; [exact Hx|]. unfold ts_le. intros; lia.
    + apply before_false in E. constructor; [exact IH|].
      rewrite (Forall_forall (ts_le x)). intros y Hy.
      apply list_elem_of_In in Hy.
      apply (Permutation_in _ (insert_row_perm r l)) in Hy.
      destruct Hy as [<-|Hy]; [exact E|].
      rewrite (Forall_forall (ts_le x)) in Hx. apply Hx.
      by apply list_elem_of_In.
Qed.

Lemma insertion_sort_sorted l : StronglySorted ts_le (insertion_sort before l).
Proof.
  induction l as [|r l IH]; simpl; [constructor|].
  by apply insert_row_sorted.
Qed.
End InsertionSort.

(** A stable sort ([kind="stable"]): rows with one timestamp keep their
    order. *)
Definition stable_pandas : Pandas :=
  {| sort_values := insertion_sort Z.leb;
     sort_values_perm := insertion_sort_perm Z.leb;
     sort_values_sorted :=
       insertion_sort_sorted Z.leb
         (λ a b, proj1 (Z.leb_le a b))
         (λ a b E, Z.lt_le_incl _ _ (proj1 (Z.leb_gt a b) E)) |}.

(** A sort that is not stable: rows with one timestamp come back in the
    opposite order. *)
Definition unstable_pandas : Pandas :=
  {| sort_values := insertion_sort Z.ltb;
     sort_values_perm := insertion_sort_perm Z.ltb;
     sort_values_sorted :=
       insertion_sort_sorted Z.ltb
         (λ a b E, Z.lt_le_incl _ _ (proj1 (Z.ltb_lt a b) E))
         (λ a b, proj1 (Z.ltb_ge a b)) |}.

(** ** Running the monad *)

Lemma bind_ok {A B} (m : Py A) (f : A → Py B) w a w' :
  m w = (Ok a, w') → (m ≫= f) w = f a w'.
Proof. intros E. unfold mbind, Py_bind. by rewrite E. Qed.

Lemma bind_raise {A B} (m : Py A) (f : A → Py B) w x w' :
  m w = (Raise x, w') → (m ≫= f) w = (Raise x, w').
Proof. intros E. unfold mbind, Py_bind. by rewrite E. Qed.

(** Unfold the monad and the primitive actions, and compute. *)
Ltac run_py :=
  unfold mbind, Py_bind, mret, Py_ret, get_self, modify_self, lift, mul_cell,
    np_random_random;
  cbn.

Lemma for_rows_app pre post log w :
  for_rows (pre ++ post) log w =
  match for_rows pre log w with
  | (Ok log', w') => for_rows post log' w'
  | (Raise x, w') => (Raise x, w')
  end.
Proof.
  revert log w. induction pre as [|r pre IH]; intros log w; simpl; [done|].
  unfold mbind, Py_bind. destruct (loop_body r log w) as [[log'|x] w']; [|done].
  apply IH.
Qed.

(** ** [should_copy] and the loop body on numbers *)

Lemma should_copy_numeric (s u : float) w :
  ∃ msg,
    should_copy (VFloat s) (VFloat u) w
    = (Ok (accept (verdict s u w).1, msg), advance (verdict s u w).2 w)
    ∧ reason_of msg = why (verdict s u w).1
    ∧ (accept (verdict s u w).1 = false → msg ≠ EXECUTED).
Proof.
  destruct w as [e [smp k]]. unfold verdict, evaluate, should_copy, advance, gtb.
  run_py.
  destruct (s * _ <? _)%float; cbn; [eexists; repeat split; done|].
  destruct (_ <? u * _)%float; cbn; [eexists; repeat split; done|].
  destruct (_ <? smp k)%float; cbn; eexists; repeat split; done.
Qed.

Lemma loop_body_numeric r log w s u :
  Row.whale_shares r = VFloat s →
  Row.whale_usd r = VFloat u →
  ∃ en w', loop_body r log w = (Ok (log ++ [en]), w') ∧ pass r s u w w' en.
Proof.
  intros Hs Hu. unfold loop_body. rewrite Hs, Hu.
  destruct (should_copy_numeric s u w) as (msg & E & _ & Hskip).
  rewrite (bind_ok _ _ _ _ _ E).
  destruct (verdict s u w) as [[acc rsn] n] eqn:V. cbn in *.
  destruct w as [e g]. unfold advance. destruct acc.
  - unfold execute_trade. run_py.
    destruct (String.eqb (Row.side r) "BUY") eqn:B; cbn;
      (do 2 eexists; split; [reflexivity|]);
      split; cbn; unfold apply_side, logged_as; rewrite ?V, ?B; done.
  - run_py. do 2 eexists. split; [reflexivity|].
    specialize (Hskip eq_refl).
    split; cbn; unfold logged_as; rewrite ?V; try done; by destruct msg.
Qed.

Lemma numeric_cells r :
  Row.numeric r = true →
  ∃ s u, Row.whale_shares r = VFloat s ∧ Row.whale_usd r = VFloat u.
Proof.
  unfold Row.numeric.
  destruct (Row.whale_shares r), (Row.whale_usd r); try done. eauto.
Qed.

(** Each pass moves exactly one of the two counters, by one. *)
Lemma pass_counts r s u w w' en :
  pass r s u w w' en →
  (trades_executed (self w') = (trades_executed (self w) + 1)%Z
   ∧ trades_skipped (self w') = trades_skipped (self w))
  ∨ (trades_executed (self w') = trades_executed (self w)
     ∧ trades_skipped (self w') = (trades_skipped (self w) + 1)%Z).
Proof.
  intros P. destruct (executed en) eqn:X.
  - left. by destruct (pass_copied _ _ _ _ _ _ P X) as (_ & ? & ? & _).
  - right. by destruct (pass_skipped _ _ _ _ _ _ P X) as (_ & ? & ? & _).
Qed.

(** ** The loop on a frame of numbers *)

Lemma for_rows_numeric rows log w :
  forallb Row.numeric rows = true →
  ∃ ens w', for_rows rows log w = (Ok (log ++ ens), w') ∧ replay w rows ens w'.
Proof.
  revert log w. induction rows as [|r rows IH]; intros log w Hn; simpl.
  - exists [], w. rewrite app_nil_r. split; [done|constructor].
  - simpl in Hn. apply andb_prop in Hn as [Hr Hrows].
    destruct (numeric_cells r Hr) as (s & u & Hs & Hu).
    destruct (loop_body_numeric r log w s u Hs Hu) as (en & w1 & E & P).
    destruct (IH (log ++ [en]) w1 Hrows) as (ens & w2 & E2 & R).
    exists (en :: ens), w2. split.
    + rewrite (bind_ok _ _ _ _ _ E), E2. by rewrite <- app_assoc.
    + econstructor; eauto.
Qed.

(** The same, for the loop as [run_backtest] starts it: on an empty log. *)
Lemma for_rows_from_empty rows w :
  forallb Row.numeric rows = true →
  ∃ log w', for_rows rows [] w = (Ok log, w') ∧ replay w rows log w'.
Proof. apply (for_rows_numeric rows []). Qed.

Lemma replay_length w rows ens w' :
  replay w rows ens w' → length ens = length rows.
Proof. induction 1; simpl; congruence. Qed.

Lemma replay_params w rows ens w' :
  replay w rows ens w' → params (self w') = params (self w).
Proof.
  induction 1 as [|w r s u en w1 rows ens w2 _ _ P _ IH]; [done|].
  rewrite IH. apply P.
Qed.

Lemma replay_counters w rows ens w' :
  replay w rows ens w' →
  (trades_executed (self w') + trades_skipped (self w')
   = trades_executed (self w) + trades_skipped (self w)
     + Z.of_nat (length rows))%Z.
Proof.
  induction 1 as [|w r s u en w1 rows ens w2 _ _ P _ IH]; simpl length; [lia|].
  rewrite IH. destruct (pass_counts _ _ _ _ _ _ P) as [[-> ->]|[-> ->]]; lia.
Qed.

Lemma replay_logged w rows ens w' :
  replay w rows ens w' → Forall2 logged_as rows ens.
Proof.
  induction 1 as [|w r s u en w1 rows ens w2 _ _ P _ IH]; constructor; [|done].
  apply P.
Qed.

Lemma replay_ledger t w rows ens w' :
  replay w rows ens w' →
  keyed_apart t rows = true →
  position_of (self w') t
  = fold_left (add_entry (short_token t)) ens (position_of (self w) t).
Proof.
  induction 1 as [|w r s u en w1 rows ens w2 _ _ P _ IH]; intros Hk; [done|].
  simpl in Hk. apply andb_prop in Hk as [Hr Hrows].
  simpl. rewrite (IH Hrows). f_equal. unfold add_entry.
  destruct (pass_logged _ _ _ _ _ _ P) as (_ & Htok & Hside & _).
  destruct (executed en) eqn:X; simpl.
  - destruct (pass_copied _ _ _ _ _ _ P X) as (Hour & _ & _ & Hpos).
    rewrite Htok, Hside, Hour.
    unfold position_of at 1. rewrite Hpos. simpl.
    destruct (String.eqb_spec (short_token (Row.token_id r)) (short_token t))
      as [Hkey|Hkey].
    + simpl in Hr. apply String.eqb_eq in Hr. rewrite Hr.
      by rewrite lookup_insert_eq.
    + rewrite lookup_insert_ne; [done|].
      intros Heq. apply Hkey. by rewrite Heq.
  - destruct (pass_skipped _ _ _ _ _ _ P X) as (_ & _ & _ & Hpos & _).
    unfold position_of. by rewrite Hpos.
Qed.

Lemma replay_ledger_events t w rows ens w' :
  replay w rows ens w' →
  position_of (self w') t
  = fold_left (add_event t) (zip rows ens) (position_of (self w) t).
Proof.
  induction 1 as [|w r s u en w1 rows ens w2 _ _ P _ IH]; [done|].
  simpl. rewrite IH. f_equal. unfold add_event. simpl.
  destruct (pass_logged _ _ _ _ _ _ P) as (_ & _ & Hside & _).
  destruct (executed en) eqn:X; simpl.
  - destruct (pass_copied _ _ _ _ _ _ P X) as (Hour & _ & _ & Hpos).
    rewrite Hside, Hour. unfold position_of at 1. rewrite Hpos. simpl.
    destruct (String.eqb_spec (Row.token_id r) t) as [Heq|Hne].
    + by rewrite Heq, lookup_insert_eq.
    + by rewrite lookup_insert_ne.
  - destruct (pass_skipped _ _ _ _ _ _ P X) as (_ & _ & _ & Hpos & _).
    unfold position_of. by rewrite Hpos.
Qed.

Lemma replay_copied_shares w rows ens w' :
  replay w rows ens w' →
  Forall (λ en, executed en = true →
                ∃ sh, Entry.whale_shares en = VFloat sh
                      ∧ Entry.our_shares en
                        = Float (sh * scale_ratio (self w))) ens.
Proof.
  induction 1 as [|w r s u en w1 rows ens w2 Hs _ P _ IH]; constructor.
  - intros X. exists s. split.
    + destruct (pass_logged _ _ _ _ _ _ P) as (_ & _ & _ & Hsh & _).
      by rewrite Hsh.
    + by destruct (pass_copied _ _ _ _ _ _ P X) as (-> & _).
  - pose proof (pass_params _ _ _ _ _ _ P) as HP. unfold params in HP.
    injection HP as Hscale _ _ _. by rewrite Hscale in IH.
Qed.

Lemma replay_all_skipped w rows ens w' :
  replay w rows ens w' →
  (∀ i, gtb (samples (np_random w) i) (copy_probability (self w)) = true) →
  trades_executed (self w') = trades_executed (self w)
  ∧ positions (self w') = positions (self w)
  ∧ total_volume_usd (self w') = total_volume_usd (self w)
  ∧ entry_prices (self w') = entry_prices (self w)
  ∧ Forall (λ en, executed en = false) ens.
Proof.
  induction 1 as [|w r s u en w1 rows ens w2 _ _ P _ IH]; intros Hsmp.
  { by repeat split. }
  assert (X : executed en = false).
  { rewrite (pass_verdict _ _ _ _ _ _ P). unfold verdict, evaluate.
    destruct (_ <? _)%float; [done|]. destruct (gtb (u * _) _); [done|].
    by rewrite Hsmp. }
  destruct (pass_skipped _ _ _ _ _ _ P X) as (_ & Hx & _ & Hp & Hv & Hl).
  destruct IH as (IHx & IHp & IHv & IHl & IHall).
  { intros i. pose proof (pass_params _ _ _ _ _ _ P) as HP.
    unfold params in HP. injection HP as _ _ _ ->.
    rewrite (pass_generator _ _ _ _ _ _ P). apply Hsmp. }
  rewrite IHx, IHp, IHv, IHl, Hx, Hp, Hv, Hl. repeat split; try done.
  by constructor.
Qed.

Lemma forallb_perm (f : Row.t → bool) (l l' : list Row.t) :
  Permutation l l' → forallb f l' = true → forallb f l = true.
Proof.
  intros HP. rewrite !forallb_forall. intros H r Hr. apply H.
  by apply (Permutation_in _ HP).
Qed.

Lemma numeric_take n (l : list Row.t) :
  forallb Row.numeric l = true → forallb Row.numeric (take n l) = true.
Proof.
  rewrite !forallb_forall. intros H r Hr. apply H.
  rewrite <- (take_drop n l). apply in_or_app. by left.
Qed.

(** The summary of a run over [n >= 0] rows is always produced. *)
Lemma summary_ok e (n : nat) log :
  ∃ res, summary e (Z.of_nat n) log = Ok res
         ∧ Result.total_whale_trades res = Z.of_nat n
         ∧ Result.trades_executed res = trades_executed e
         ∧ Result.trades_skipped res = trades_skipped e
         ∧ Result.strategy_params res = params e
         ∧ Result.execution_log res = last_items 20 log.
Proof.
  unfold summary, int_truediv.
  destruct (0 <? Z.of_nat n)%Z eqn:E; [|by eexists].
  apply Z.ltb_lt in E. destruct (Z.eqb_spec (Z.of_nat n) 0); [lia|].
  by eexists.
Qed.

(** [run_backtest] on a frame of numbers: the loop, then the summary. *)
Lemma run_backtest_numeric `{Pandas} feed w :
  forallb Row.numeric feed = true →
  ∃ log w' res,
    for_rows (sort_values feed) [] w = (Ok log, w')
    ∧ replay w (sort_values feed) log w'
    ∧ run_backtest feed w = (Ok res, w')
    ∧ Result.total_whale_trades res = Z.of_nat (length feed)
    ∧ Result.trades_executed res = trades_executed (self w')
    ∧ Result.trades_skipped res = trades_skipped (self w')
    ∧ Result.strategy_params res = params (self w')
    ∧ Result.execution_log res = last_items 20 log.
Proof.
  intros Hnum. pose proof (sort_values_perm feed) as HP.
  destruct (for_rows_from_empty _ w (forallb_perm _ _ _ HP Hnum))
    as (log & w' & E & R).
  destruct (summary_ok (self w') (length (sort_values feed)) log)
    as (res & Eres & Ht & Hx & Hk & Hp & Hl).
  exists log, w', res. repeat split; try done.
  - unfold run_backtest. rewrite (bind_ok _ _ _ _ _ E).
    unfold mbind, Py_bind, get_self, lift. by rewrite Eres.
  - by rewrite Ht, (Permutation_length HP).
Qed.

(** ** Facts of binary64 arithmetic *)

(** Multiplying by [1 = 2^52 * 2^-52] is exact: the product's mantissa is
    shifted back by 52 bits with nothing lost. *)
Lemma SFmul_one (x : spec_float) :
  valid_binary x = true →
  SFmul prec emax x (S754_finite false 4503599627370496 (-52)) = x.
Proof.
  destruct x as [s|s| |s m e]; simpl; intros V; auto.
  - by destruct s.
  - by destruct s.
  - unfold bounded, canonical_mantissa in V.
    apply andb_prop in V as [C B]. apply Z.eqb_eq in C.
    rewrite (Pos.mul_comm m).
    change (4503599627370496 * m)%positive
      with (Pos.iter xO m 52%positive).
    cbn [Pos.iter].
    unfold binary_round_aux, shr_fexp. cbn [Zdigits2 digits2_pos].
    match type of C with ?t = _ =>
      match goal with |- context [fexp prec emax ?a] =>
        replace (fexp prec emax a) with t by (f_equal; lia) end end.
    rewrite C.
    replace (e - (e + -52))%Z with 52%Z by lia.
    unfold shr at 1.
    cbn [SpecFloat.iter_pos shr_1 shr_record_of_loc shr_m shr_r shr_s
         loc_of_shr_record
         round_nearest_even Zdigits2 orb].
    replace (e + -52 + 52)%Z with e by lia.
    rewrite C, Z.sub_diag. unfold shr. cbn [shr_m].
    change (emax - prec)%Z with 971%Z in B |- *. rewrite B.
    by destruct s.
Qed.

Lemma mul_one (x : float) : (x * 1)%float = x.
Proof.
  rewrite <- (SF2Prim_Prim2SF (x * 1)), mul_spec.
  change (Prim2SF 1) with (S754_finite false 4503599627370496 (-52)).
  unfold SF64mul. rewrite SFmul_one by apply Prim2SF_valid.
  apply SF2Prim_Prim2SF.
Qed.

(** Nothing is above [+∞]. *)
Lemma nothing_above_infinity (y : float) : gtb y infinity = false.
Proof.
  unfold gtb. rewrite ltb_spec.
  change (Prim2SF infinity) with (S754_infinity false).
  by destruct (Prim2SF y) as [ | [] | | ].
Qed.

Lemma SFcompare_antisym (a b : spec_float) :
  SFcompare b a = CompOpp <$> SFcompare a b.
Proof.
  destruct a as [sa|sa| |sa ma ea], b as [sb|sb| |sb mb eb]; simpl;
    try done; try (by destruct sa); try (by destruct sb);
    try (by destruct sa, sb).
  destruct sa, sb; try done; f_equal;
    rewrite (Z.compare_antisym ea eb);
    destruct (ea ?= eb)%Z; simpl; try done.
  - f_equal. exact (eq_sym (Pos.compare_cont_antisym ma mb Eq)).
  - exact (eq_sym (Pos.compare_cont_antisym ma mb Eq)).
Qed.

(** [<] is asymmetric. *)
Lemma ltb_asym (x y : float) : (x <? y)%float = true → gtb x y = false.
Proof.
  unfold gtb. rewrite !ltb_spec. unfold SFltb.
  rewrite (SFcompare_antisym (Prim2SF x) (Prim2SF y)).
  by destruct (SFcompare (Prim2SF x) (Prim2SF y)) as [[]|].
Qed.

(** A threshold that compares equal to [0] ([0.0] or [-0.0]) is exceeded by
    what exceeds [0.0]. *)
Lemma zero_threshold (p x : float) :
  (p =? 0)%float = true → gtb x p = gtb x 0.
Proof.
  unfold gtb. rewrite FloatAxioms.eqb_spec, !ltb_spec.
  change (Prim2SF 0) with (S754_zero false).
  by destruct (Prim2SF p) as [sg|[]| |[] mp ep].
Qed.

(** ** A cell that holds no number *)

Lemma should_copy_malformed r w :
  malformed_for (self w) r = true →
  should_copy (Row.whale_shares r) (Row.whale_usd r) w = (Raise TypeError, w).
Proof.
  destruct w as [e g]. unfold malformed_for, should_copy. run_py.
  destruct (Row.whale_shares r) as [s| |]; try done.
  destruct (s * _ <? _)%float; [done|].
  by destruct (Row.whale_usd r).
Qed.

Lemma loop_body_malformed r log w :
  malformed_for (self w) r = true →
  loop_body r log w = (Raise TypeError, w).
Proof.
  intros H. unfold loop_body.
  by rewrite (bind_raise _ _ _ _ _ (should_copy_malformed r w H)).
Qed.

Lemma malformed_for_params e e' r :
  params e' = params e → malformed_for e' r = malformed_for e r.
Proof. unfold params, malformed_for. intros [= -> -> _ _]. done. Qed.

(** ** The full-copy configuration *)

Lemma replay_full_copy w rows ens w' :
  replay w rows ens w' →
  params (self w) = (1, 0, infinity, 1)%float →
  (∀ i, (samples (np_random w) i <? 1)%float = true) →
  forallb size_not_negative rows = true →
  trades_executed (self w') = (trades_executed (self w) + Z.of_nat (length rows))%Z
  ∧ trades_skipped (self w') = trades_skipped (self w)
  ∧ Forall (λ en, executed en = true) ens.
Proof.
  induction 1 as [|w r s u en w1 rows ens w2 Hs Hu P _ IH];
    intros Hp Hsmp Hsz.
  - split; [simpl; lia|]. by split.
  - simpl in Hsz. apply andb_prop in Hsz as [Hr Hrows].
    unfold size_not_negative in Hr. rewrite Hs in Hr.
    apply negb_true_iff in Hr.
    assert (X : executed en = true).
    { rewrite (pass_verdict _ _ _ _ _ _ P). unfold verdict, evaluate.
      unfold params in Hp. injection Hp as -> -> -> ->.
      rewrite !mul_one, Hr, nothing_above_infinity, (ltb_asym _ _ (Hsmp _)).
      done. }
    destruct (pass_copied _ _ _ _ _ _ P X) as (_ & Hx & Hk & _).
    destruct IH as (IHx & IHk & IHall).
    + by rewrite (pass_params _ _ _ _ _ _ P).
    + by rewrite (pass_generator _ _ _ _ _ _ P).
    + done.
    + rewrite IHx, IHk, Hx, Hk. simpl length.
      split; [lia|]. split; [done|]. by constructor.
Qed.

(** ** Sorting a frame that is already in order *)

Lemma sort_values_nil `{Pandas} : sort_values [] = [].
Proof. apply Permutation_nil. symmetry. apply sort_values_perm. Qed.

Lemma sorted_perm_unique (l l' : list Row.t) :
  Permutation l' l →
  StronglySorted (λ a b, (Row.timestamp_ms a <= Row.timestamp_ms b)%Z) l' →
  strictly_ascending l →
  l' = l.
Proof.
  revert l'. induction l as [|a l IH]; intros l' HP Hle Hlt.
  - apply Permutation_nil. by symmetry.
  - destruct l' as [|b l'].
    { by apply Permutation_nil in HP. }
    apply StronglySorted_inv in Hle as [Hle Hb].
    apply StronglySorted_inv in Hlt as [Hlt Ha].
    rewrite (Forall_forall (λ y, (_ <= Row.timestamp_ms y)%Z)) in Hb.
    rewrite (Forall_forall (λ y, (_ < Row.timestamp_ms y)%Z)) in Ha.
    assert (b = a) as ->.
    { assert (Hin : In b (a :: l)) by (apply (Permutation_in _ HP); by left).
      destruct Hin as [->|Hin]; [done|].
      assert (Hin' : In a (b :: l'))
        by (apply (Permutation_in _ (Permutation_sym HP)); by left).
      destruct Hin' as [->|Hin']; [done|].
      apply list_elem_of_In in Hin, Hin'.
      specialize (Ha _ Hin). specialize (Hb _ Hin'). lia. }
    f_equal. apply IH; [by apply Permutation_cons_inv in HP|done|done].
Qed.

Lemma sort_values_strictly_ascending `{Pandas} (feed : list Row.t) :
  strictly_ascending feed → sort_values feed = feed.
Proof.
  intros. apply sorted_perm_unique;
    [apply sort_values_perm|apply sort_values_sorted|done].
Qed.

Lemma strictly_ascending_sample_feed : strictly_ascending sample_feed.
Proof. unfold strictly_ascending, sample_feed. repeat constructor; simpl; lia. Qed.

(** Why the order of the log is stated for strictly ascending timestamps:
    a sort that meets the contract of [sort_values] may return two events
    stamped alike in either order, and the log follows the sorted frame. *)
Lemma tied_timestamps_may_swap :
  (∃ res w,
     @run_backtest unstable_pandas tied_feed
       (start (engine 1 10 1000 1) (constant_generator 0.5))
     = (Ok res, w)
     ∧ Entry.token_id <$> Result.execution_log res
       = [ "38865488008932950700..."; "79003893007240922565..." ])
  ∧ (∃ res w,
     @run_backtest stable_pandas tied_feed
       (start (engine 1 10 1000 1) (constant_generator 0.5))
     = (Ok res, w)
     ∧ Entry.token_id <$> Result.execution_log res
       = [ "79003893007240922565..."; "38865488008932950700..." ]).
Proof.
  split; (eexists _, _; split; [vm_compute; reflexivity|]);
    vm_compute; reflexivity.
Qed.

(** ** [round] on known values *)

Example round_2_675 : py_round 0x1.5666666666666p+1 2 = 0x1.55c28f5c28f5cp+1%float.
Proof. reflexivity. Qed.

Example round_tie_to_even : py_round 0.125 2 = 0x1.eb851eb851eb8p-4%float.
Proof. reflexivity. Qed.

Example round_zero : py_round 0 2 = 0%float ∧ py_round (-0) 4 = (-0)%float.
Proof. split; reflexivity. Qed.

(** * Part IV: the properties of the specification *)

(** C1. On a fresh engine and a frame of numbers, after the loop has
    processed any prefix of the sorted frame, [trades_executed +
    trades_skipped] is the number of rows processed so far, and the run over
    the whole frame continues from exactly that state; the result of the run
    reports counters that add up to [total_whale_trades].  Every single
    pass, from any state, moves exactly one of the two counters, by one. *)
Theorem counters_add_up_at_every_prefix `{Pandas}
    (s m x p : float) (g : Generator) (feed : list Row.t) (n : nat) :
  forallb Row.numeric feed = true →
  ∃ e0 log w res w_end,
    BacktestEngine__init__ s m x p = Ok e0
    ∧ for_rows (take n (sort_values feed)) [] (start e0 g) = (Ok log, w)
    ∧ (trades_executed (self w) + trades_skipped (self w)
       = Z.of_nat (length (take n (sort_values feed))))%Z
    ∧ for_rows (sort_values feed) [] (start e0 g)
      = for_rows (drop n (sort_values feed)) log w
    ∧ run_backtest feed (start e0 g) = (Ok res, w_end)
    ∧ (Result.trades_executed res + Result.trades_skipped res
       = Result.total_whale_trades res)%Z
    ∧ ∀ r log0 w0,
        Row.numeric r = true →
        ∃ en w1,
          loop_body r log0 w0 = (Ok (log0 ++ [en]), w1)
          ∧ ((trades_executed (self w1) = (trades_executed (self w0) + 1)%Z
              ∧ trades_skipped (self w1) = trades_skipped (self w0))
             ∨ (trades_executed (self w1) = trades_executed (self w0)
                ∧ trades_skipped (self w1) = (trades_skipped (self w0) + 1)%Z)).
Proof.
  intros Hnum. pose proof (sort_values_perm feed) as HP.
  destruct (for_rows_from_empty _ (start (engine s m x p) g)
              (numeric_take n _ (forallb_perm _ _ _ HP Hnum)))
    as (log & w & E & R).
  destruct (run_backtest_numeric feed (start (engine s m x p) g) Hnum)
    as (log' & w' & res & _ & R' & Erun & Ht & Hx & Hk & _).
  exists (engine s m x p), log, w, res, w'.
  split; [done|]. split; [exact E|]. split.
  { rewrite (replay_counters _ _ _ _ R). simpl. lia. }
  split.
  { rewrite <- (take_drop n (sort_values feed)) at 1.
    by rewrite for_rows_app, E. }
  split; [exact Erun|]. split.
  { rewrite Ht, Hx, Hk, (replay_counters _ _ _ _ R'), (Permutation_length HP).
    simpl. lia. }
  intros r log0 w0 Hr.
  destruct (numeric_cells r Hr) as (sh & u & Hs & Hu).
  destruct (loop_body_numeric r log0 w0 sh u Hs Hu) as (en & w1 & Eb & P).
  exists en, w1. split; [exact Eb|]. exact (pass_counts _ _ _ _ _ _ P).
Qed.

Lemma counters_add_up_at_every_prefix_witness :
  forallb Row.numeric sample_feed = true
  ∧ ∃ e0 log w res w_end,
    BacktestEngine__init__ 1 10 1000 1 = Ok e0
    ∧ for_rows (take 2 (@sort_values stable_pandas sample_feed)) []
        (start e0 (constant_generator 0.5)) = (Ok log, w)
    ∧ (trades_executed (self w) + trades_skipped (self w)
       = Z.of_nat (length (take 2 (@sort_values stable_pandas sample_feed))))%Z
    ∧ for_rows (@sort_values stable_pandas sample_feed) []
        (start e0 (constant_generator 0.5))
      = for_rows (drop 2 (@sort_values stable_pandas sample_feed)) log w
    ∧ @run_backtest stable_pandas sample_feed
        (start e0 (constant_generator 0.5)) = (Ok res, w_end)
    ∧ (Result.trades_executed res + Result.trades_skipped res
       = Result.total_whale_trades res)%Z
    ∧ ∀ r log0 w0,
        Row.numeric r = true →
        ∃ en w1,
          loop_body r log0 w0 = (Ok (log0 ++ [en]), w1)
          ∧ ((trades_executed (self w1) = (trades_executed (self w0) + 1)%Z
              ∧ trades_skipped (self w1) = trades_skipped (self w0))
             ∨ (trades_executed (self w1) = trades_executed (self w0)
                ∧ trades_skipped (self w1) = (trades_skipped (self w0) + 1)%Z)).
Proof.
  split; [reflexivity|].
  apply (@counters_add_up_at_every_prefix stable_pandas). reflexivity.
Defined.

(** C2. On a fresh engine and a frame of numbers, after the loop has
    processed any prefix of the sorted frame, the net shares of every token
    equal the signed sum, in order and starting from 0, of the copied shares
    of the executed log entries for that token, which are the entries the
    loop appended for the events of the prefix that trade it: a [BUY] entry
    adds, any other side subtracts.  The log holds one entry per event, the
    one that records it, and each executed entry's copied shares are its
    observed shares times [scale_ratio]. *)
Theorem net_shares_match_the_executed_entries `{Pandas}
    (s m x p : float) (g : Generator) (feed : list Row.t) (n : nat)
    (t : string) :
  forallb Row.numeric feed = true →
  ∃ e0 log w,
    BacktestEngine__init__ s m x p = Ok e0
    ∧ for_rows (take n (sort_values feed)) [] (start e0 g) = (Ok log, w)
    ∧ Forall2 logged_as (take n (sort_values feed)) log
    ∧ position_of (self w) t
      = signed_sum_for t (take n (sort_values feed)) log
    ∧ Forall (λ en, executed en = true →
                    ∃ sh, Entry.whale_shares en = VFloat sh
                          ∧ Entry.our_shares en = Float (sh * s)) log.
Proof.
  intros Hnum. pose proof (sort_values_perm feed) as HP.
  destruct (for_rows_from_empty _ (start (engine s m x p) g)
              (numeric_take n _ (forallb_perm _ _ _ HP Hnum)))
    as (log & w & E & R).
  exists (engine s m x p), log, w. split; [done|]. split; [done|].
  split; [apply (replay_logged _ _ _ _ R)|]. split.
  - apply (replay_ledger_events t _ _ _ _ R).
  - apply (replay_copied_shares _ _ _ _ R).
Qed.

Lemma net_shares_match_the_executed_entries_witness :
  forallb Row.numeric twin_feed = true
  ∧ ∃ e0 log w,
    BacktestEngine__init__ 1 10 1000 1 = Ok e0
    ∧ for_rows (take 2 (@sort_values stable_pandas twin_feed)) []
        (start e0 (constant_generator 0.5)) = (Ok log, w)
    ∧ Forall2 logged_as (take 2 (@sort_values stable_pandas twin_feed)) log
    ∧ position_of (self w) token_a
      = signed_sum_for token_a
          (take 2 (@sort_values stable_pandas twin_feed)) log
    ∧ Forall (λ en, executed en = true →
                    ∃ sh, Entry.whale_shares en = VFloat sh
                          ∧ Entry.our_shares en = Float (sh * 1)) log.
Proof.
  split; [reflexivity|].
  apply (@net_shares_match_the_executed_entries stable_pandas 1 10 1000 1
           (constant_generator 0.5) twin_feed 2 token_a); reflexivity.
Defined.

(** C3. On numeric cells [should_copy] applies the rules in the order of the
    specification and stops at the first that fails: scaled shares below
    [min_shares] reject with the minimum-shares message, leave the generator
    untouched and do not even read the USD cell (whatever it holds);
    otherwise scaled USD above [max_position_usd]
    rejects with the maximum-position message, again without a draw;
    otherwise exactly one sample is drawn, and it rejects with the
    probability message when the sample exceeds [copy_probability] and
    accepts when it does not.  In all cases the answer is the decision of
    [evaluate] and the generator has advanced by the draws [evaluate]
    counts; the engine is never touched. *)
Theorem should_copy_rule_order (s u : float) (w : World) :
  let e := self w in
  let our_shares := (s * scale_ratio e)%float in
  let scaled_usd := (u * scale_ratio e)%float in
  let sample := samples (np_random w) (drawn (np_random w)) in
  ((our_shares <? min_shares e)%float = true →
     ∀ usd : value,
       should_copy (VFloat s) usd w
       = (Ok (false, SKIP_shares our_shares (min_shares e)), w))
  ∧ ((our_shares <? min_shares e)%float = false →
     gtb scaled_usd (max_position_usd e) = true →
     should_copy (VFloat s) (VFloat u) w
     = (Ok (false, SKIP_usd scaled_usd (max_position_usd e)), w))
  ∧ ((our_shares <? min_shares e)%float = false →
     gtb scaled_usd (max_position_usd e) = false →
     gtb sample (copy_probability e) = true →
     should_copy (VFloat s) (VFloat u) w
     = (Ok (false, SKIP_probability (copy_probability e * 100)%float),
        advance 1 w))
  ∧ ((our_shares <? min_shares e)%float = false →
     gtb scaled_usd (max_position_usd e) = false →
     gtb sample (copy_probability e) = false →
     should_copy (VFloat s) (VFloat u) w = (Ok (true, COPY), advance 1 w))
  ∧ ∃ msg,
      should_copy (VFloat s) (VFloat u) w
      = (Ok (accept (verdict s u w).1, msg), advance (verdict s u w).2 w)
      ∧ reason_of msg = why (verdict s u w).1.
Proof.
  cbv zeta. repeat split.
  - intros H1 usd. destruct w as [e g]. unfold should_copy. run_py. cbn in H1.
    by rewrite H1.
  - intros H1 H2. destruct w as [e g]. unfold should_copy. run_py.
    cbn in H1, H2. by rewrite H1, H2.
  - intros H1 H2 H3. destruct w as [e [smp k]]. unfold should_copy. run_py.
    cbn in H1, H2, H3. rewrite H1, H2. cbn. by rewrite H3.
  - intros H1 H2 H3. destruct w as [e [smp k]]. unfold should_copy. run_py.
    cbn in H1, H2, H3. rewrite H1, H2. cbn. by rewrite H3.
  - destruct (should_copy_numeric s u w) as (msg & E & Hr & _). by exists msg.
Qed.

(** C4 (as the code has it). There is no malformed-event rejection.  When
    the shares cell of an event holds [None] or a string, or its USD cell
    does and the scaled shares are not below [min_shares], the
    multiplication in [should_copy] raises [TypeError] before any sample is
    drawn; nothing is logged for the event and the run does not continue:
    the exception escapes [run_backtest], and the engine and the generator
    are left as the events before it left them. *)
Theorem malformed_event_escapes `{Pandas}
    (w : World) (feed pre post : list Row.t) (bad : Row.t) :
  sort_values feed = pre ++ bad :: post →
  forallb Row.numeric pre = true →
  malformed_for (self w) bad = true →
  ∃ log w1,
    for_rows pre [] w = (Ok log, w1)
    ∧ length log = length pre
    ∧ should_copy (Row.whale_shares bad) (Row.whale_usd bad) w1
      = (Raise TypeError, w1)
    ∧ run_backtest feed w = (Raise TypeError, w1).
Proof.
  intros Hsplit Hpre Hbad.
  destruct (for_rows_from_empty pre w Hpre) as (log & w1 & E & R).
  assert (Hbad1 : malformed_for (self w1) bad = true).
  { by rewrite (malformed_for_params _ _ _ (replay_params _ _ _ _ R)). }
  exists log, w1. split; [done|]. split; [apply (replay_length _ _ _ _ R)|].
  split; [by apply should_copy_malformed|].
  unfold run_backtest. apply bind_raise.
  rewrite Hsplit, for_rows_app, E. simpl.
  by rewrite (bind_raise _ _ _ _ _ (loop_body_malformed bad log w1 Hbad1)).
Qed.

Lemma malformed_event_escapes_witness :
  @sort_values stable_pandas malformed_feed
  = [buy 1 token_a 100 50 0.5]
    ++ Row.mk 2 token_b "BUY" VNone (VFloat 5) (VFloat 1)
    :: [sell 3 token_a 40 20 0.5]
  ∧ forallb Row.numeric [buy 1 token_a 100 50 0.5] = true
  ∧ malformed_for (engine 1 10 1000 1)
      (Row.mk 2 token_b "BUY" VNone (VFloat 5) (VFloat 1)) = true
  ∧ ∃ log w1,
    for_rows [buy 1 token_a 100 50 0.5] []
      (start (engine 1 10 1000 1) (constant_generator 0.5)) = (Ok log, w1)
    ∧ length log = 1
    ∧ should_copy VNone (VFloat 5) w1 = (Raise TypeError, w1)
    ∧ @run_backtest stable_pandas malformed_feed
        (start (engine 1 10 1000 1) (constant_generator 0.5))
      = (Raise TypeError, w1).
Proof.
  split; [reflexivity|]. split; [reflexivity|]. split; [reflexivity|].
  apply (@malformed_event_escapes stable_pandas
           (start (engine 1 10 1000 1) (constant_generator 0.5))
           malformed_feed [buy 1 token_a 100 50 0.5]
           [sell 3 token_a 40 20 0.5]
           (Row.mk 2 token_b "BUY" VNone (VFloat 5) (VFloat 1)));
    reflexivity.
Defined.

(** C4, refuted as stated: an event whose shares are missing is not logged
    as a rejection; the run raises [TypeError] at it, after the first event
    was executed and with no sample drawn for the second. *)
Lemma missing_size_raises_type_error :
  @run_backtest stable_pandas malformed_feed
    (start (engine 1 10 1000 1) (constant_generator 0.5))
  = (Raise TypeError,
     mkWorld
       (mkEngine 1 10 1000 1 {[ token_a := 100%float ]} 1 0 50
          {[ token_a := [(100%float, VFloat 0.5)] ]})
       (mkGenerator (λ _, 0.5%float) 1)).
Proof. vm_compute. reflexivity. Qed.

(** C5 (as the code has it). The constructor validates nothing: for every
    four floats, a negative [scale_ratio], a [copy_probability] outside
    [0, 1] and negative thresholds included, it succeeds and returns an
    engine that holds them unchanged with empty positions, zero counters and
    zero volume; and the run on a frame of numbers then begins and
    completes, one log entry per row, under the per-event checks alone. *)
Theorem constructor_accepts_every_configuration `{Pandas}
    (s m x p : float) (g : Generator) (feed : list Row.t) :
  forallb Row.numeric feed = true →
  BacktestEngine__init__ s m x p = Ok (mkEngine s m x p ∅ 0 0 0 ∅)
  ∧ ∃ log res w,
      for_rows (sort_values feed) [] (start (mkEngine s m x p ∅ 0 0 0 ∅) g)
      = (Ok log, w)
      ∧ length log = length feed
      ∧ run_backtest feed (start (mkEngine s m x p ∅ 0 0 0 ∅) g) = (Ok res, w)
      ∧ Result.total_whale_trades res = Z.of_nat (length feed)
      ∧ Result.strategy_params res = (s, m, x, p).
Proof.
  intros Hnum. split; [reflexivity|].
  destruct (run_backtest_numeric feed (start (mkEngine s m x p ∅ 0 0 0 ∅) g) Hnum)
    as (log & w & res & E & R & Erun & Ht & _ & _ & Hp & _).
  exists log, res, w. repeat split; try done.
  - rewrite (replay_length _ _ _ _ R).
    apply Permutation_length, sort_values_perm.
  - by rewrite Hp, (replay_params _ _ _ _ R).
Qed.

Lemma constructor_accepts_every_configuration_witness :
  forallb Row.numeric sample_feed = true
  ∧ BacktestEngine__init__ (-1) (-10) (-1000) 2
    = Ok (mkEngine (-1) (-10) (-1000) 2 ∅ 0 0 0 ∅)
  ∧ ∃ log res w,
      for_rows (@sort_values stable_pandas sample_feed) []
        (start (mkEngine (-1) (-10) (-1000) 2 ∅ 0 0 0 ∅) (constant_generator 0.5))
      = (Ok log, w)
      ∧ length log = length sample_feed
      ∧ @run_backtest stable_pandas sample_feed
          (start (mkEngine (-1) (-10) (-1000) 2 ∅ 0 0 0 ∅) (constant_generator 0.5))
        = (Ok res, w)
      ∧ Result.total_whale_trades res = Z.of_nat (length sample_feed)
      ∧ Result.strategy_params res = ((-1)%float, (-10)%float, (-1000)%float, 2%float).
Proof.
  split; [reflexivity|].
  apply (@constructor_accepts_every_configuration stable_pandas). reflexivity.
Defined.

(** C5, refuted as stated: with [scale_ratio = -1] the constructor returns
    an engine instead of failing, and the run processes the event (it skips
    it on the minimum-shares rule, [-100 < 10]). *)
Lemma negative_scale_ratio_is_accepted :
  BacktestEngine__init__ (-1) 10 1000 1
  = Ok (mkEngine (-1) 10 1000 1 ∅ 0 0 0 ∅)
  ∧ @run_backtest stable_pandas [buy 1 token_a 100 50 0.5]
      (start (mkEngine (-1) 10 1000 1 ∅ 0 0 0 ∅) (constant_generator 0.5))
    = (Ok {| Result.total_whale_trades := 1;
             Result.trades_executed := 0;
             Result.trades_skipped := 1;
             Result.execution_rate := Float 0;
             Result.total_volume_usd := 0;
             Result.open_positions := 0;
             Result.positions := ∅;
             Result.strategy_params := (-1, 10, 1000, 1)%float;
             Result.execution_log :=
               [Entry.mk 1 "79003893007240922565..." "BUY" (VFloat 100)
                  (Int 0) (VFloat 0.5) (SKIP_shares (-100) 10)] |},
       start (mkEngine (-1) 10 1000 1 ∅ 0 1 0 ∅) (constant_generator 0.5)).
Proof. split; reflexivity. Qed.

(** C6 (as the code has it). With [copy_probability] equal to [0] ([0.0]
    or [-0.0]) and every sample greater than [0], a run on a fresh engine
    over a frame of numbers executes no trade: [trades_executed] is [0],
    [trades_skipped] is the number of events, and every one of the log
    entries, one per event, is a skip. *)
Theorem probability_zero_copies_nothing_on_positive_samples `{Pandas}
    (s m x p : float) (g : Generator) (feed : list Row.t) :
  forallb Row.numeric feed = true →
  (p =? 0)%float = true →
  (∀ i, gtb (samples g i) 0 = true) →
  ∃ e0 log res w,
    BacktestEngine__init__ s m x p = Ok e0
    ∧ for_rows (sort_values feed) [] (start e0 g) = (Ok log, w)
    ∧ run_backtest feed (start e0 g) = (Ok res, w)
    ∧ Result.trades_executed res = 0%Z
    ∧ Result.trades_skipped res = Z.of_nat (length feed)
    ∧ length log = length feed
    ∧ Forall (λ en, executed en = false) log.
Proof.
  intros Hnum Hp Hsmp.
  destruct (run_backtest_numeric feed (start (engine s m x p) g) Hnum)
    as (log & w & res & E & R & Erun & _ & Hx & Hk & _).
  destruct (replay_all_skipped _ _ _ _ R) as (Hx0 & _ & _ & _ & Hall).
  { intros i. simpl. rewrite (zero_threshold _ _ Hp). apply Hsmp. }
  pose proof (replay_counters _ _ _ _ R) as Hc.
  pose proof (replay_length _ _ _ _ R) as Hlen.
  rewrite (Permutation_length (sort_values_perm feed)) in Hc, Hlen.
  rewrite Hx0 in Hc. simpl in Hc, Hx0.
  exists (engine s m x p), log, res, w.
  rewrite Hx, Hk, Hx0. repeat split; done.
Qed.

Lemma probability_zero_copies_nothing_on_positive_samples_witness :
  forallb Row.numeric sample_feed = true
  ∧ (0 =? 0)%float = true
  ∧ (∀ i, gtb (samples (constant_generator 0.5) i) 0 = true)
  ∧ ∃ e0 log res w,
    BacktestEngine__init__ 1 10 1000 0 = Ok e0
    ∧ for_rows (@sort_values stable_pandas sample_feed) []
        (start e0 (constant_generator 0.5)) = (Ok log, w)
    ∧ @run_backtest stable_pandas sample_feed
        (start e0 (constant_generator 0.5)) = (Ok res, w)
    ∧ Result.trades_executed res = 0%Z
    ∧ Result.trades_skipped res = Z.of_nat (length sample_feed)
    ∧ length log = length sample_feed
    ∧ Forall (λ en, executed en = false) log.
Proof.
  split; [reflexivity|]. split; [reflexivity|].
  split; [intros i; reflexivity|].
  apply (@probability_zero_copies_nothing_on_positive_samples stable_pandas
           1 10 1000 0 (constant_generator 0.5) sample_feed);
    [reflexivity|reflexivity|intros i; reflexivity].
Defined.

(** C6, refuted as stated: with [copy_probability = 0] and a generator whose
    next sample is [0.0] (a value of the range [[0, 1)] of
    [np.random.random()]), [0.0 > 0] is false, so the event passes the
    probability rule, which rejects only a sample that exceeds
    [copy_probability], and is executed. *)
Theorem probability_zero_copies_on_sample_zero :
  @run_backtest stable_pandas [buy 1 token_a 100 50 0.5]
    (start (engine 1 10 1000 0) (constant_generator 0))
  = (Ok {| Result.total_whale_trades := 1;
           Result.trades_executed := 1;
           Result.trades_skipped := 0;
           Result.execution_rate := Float 100;
           Result.total_volume_usd := 50;
           Result.open_positions := 1;
           Result.positions := {[ token_a := 100%float ]};
           Result.strategy_params := (1, 10, 1000, 0)%float;
           Result.execution_log :=
             [Entry.mk 1 "79003893007240922565..." "BUY" (VFloat 100)
                (Float 100) (VFloat 0.5) EXECUTED] |},
     mkWorld
       (mkEngine 1 10 1000 0 {[ token_a := 100%float ]} 1 0 50
          {[ token_a := [(100%float, VFloat 0.5)] ]})
       (mkGenerator (λ _, 0%float) 1)).
Proof. vm_compute. reflexivity. Qed.

(** C7 (as the code has it). Under [copy_probability = 1], [min_shares = 0],
    [max_position_usd = +∞] and [scale_ratio = 1], with samples in [0, 1),
    every event of a frame of numbers whose shares are not below [0] is
    copied: [trades_executed] is the number of events and [trades_skipped]
    is [0]. *)
Theorem full_copy_of_non_negative_sizes `{Pandas}
    (g : Generator) (feed : list Row.t) :
  forallb Row.numeric feed = true →
  forallb size_not_negative feed = true →
  (∀ i, (0 <=? samples g i)%float && (samples g i <? 1)%float = true) →
  ∃ e0 res w,
    BacktestEngine__init__ 1 0 infinity 1 = Ok e0
    ∧ run_backtest feed (start e0 g) = (Ok res, w)
    ∧ Result.total_whale_trades res = Z.of_nat (length feed)
    ∧ Result.trades_executed res = Z.of_nat (length feed)
    ∧ Result.trades_skipped res = 0%Z.
Proof.
  intros Hnum Hsz Hsmp. pose proof (sort_values_perm feed) as HP.
  destruct (run_backtest_numeric feed (start (engine 1 0 infinity 1) g) Hnum)
    as (log & w & res & _ & R & Erun & Ht & Hrx & Hrk & _).
  destruct (replay_full_copy _ _ _ _ R) as (Hx & Hk & _).
  { reflexivity. }
  { intros i. specialize (Hsmp i). by apply andb_prop in Hsmp as [_ ?]. }
  { by apply (forallb_perm _ _ _ HP). }
  exists (engine 1 0 infinity 1), res, w. split; [done|]. split; [done|].
  rewrite Ht, Hrx, Hrk, Hx, Hk, (Permutation_length HP). simpl.
  repeat split; lia.
Qed.

Lemma full_copy_of_non_negative_sizes_witness :
  forallb Row.numeric sample_feed = true
  ∧ forallb size_not_negative sample_feed = true
  ∧ (∀ i, (0 <=? samples (constant_generator 0.5) i)%float
          && (samples (constant_generator 0.5) i <? 1)%float = true)
  ∧ ∃ e0 res w,
    BacktestEngine__init__ 1 0 infinity 1 = Ok e0
    ∧ @run_backtest stable_pandas sample_feed
        (start e0 (constant_generator 0.5)) = (Ok res, w)
    ∧ Result.total_whale_trades res = Z.of_nat (length sample_feed)
    ∧ Result.trades_executed res = Z.of_nat (length sample_feed)
    ∧ Result.trades_skipped res = 0%Z.
Proof.
  split; [reflexivity|]. split; [reflexivity|].
  split; [intros i; reflexivity|].
  apply (@full_copy_of_non_negative_sizes stable_pandas
           (constant_generator 0.5) sample_feed);
    [reflexivity|reflexivity|intros i; reflexivity].
Defined.

(** C7, refuted as stated: under the full-copy configuration an event of
    [-5] shares is skipped on the minimum-shares rule ([-5 < 0]). *)
Lemma negative_size_is_skipped_under_full_copy :
  @run_backtest stable_pandas [buy 1 token_a (-5) (-5) 1]
    (start (engine 1 0 infinity 1) (constant_generator 0.5))
  = (Ok {| Result.total_whale_trades := 1;
           Result.trades_executed := 0;
           Result.trades_skipped := 1;
           Result.execution_rate := Float 0;
           Result.total_volume_usd := 0;
           Result.open_positions := 0;
           Result.positions := ∅;
           Result.strategy_params := (1, 0, infinity, 1)%float;
           Result.execution_log :=
             [Entry.mk 1 "79003893007240922565..." "BUY" (VFloat (-5))
                (Int 0) (VFloat 1) (SKIP_shares (-5) 0)] |},
     start (mkEngine 1 0 infinity 1 ∅ 0 1 0 ∅) (constant_generator 0.5)).
Proof. vm_compute. reflexivity. Qed.

(** C8 (as the code has it). For every frame of numbers whose timestamps
    are strictly ascending, the execution log holds exactly one entry per
    input event, in input order: the i-th entry carries the timestamp, the
    shortened token, the side, the shares and the price of the i-th event.
    The log of the result is the last 20 entries of that log in the same
    order; 20 is a constant of [run_backtest], not an option. *)
Theorem log_keeps_input_order `{Pandas} (w : World) (feed : list Row.t) :
  forallb Row.numeric feed = true →
  strictly_ascending feed →
  ∃ log res w',
    for_rows (sort_values feed) [] w = (Ok log, w')
    ∧ Forall2 logged_as feed log
    ∧ run_backtest feed w = (Ok res, w')
    ∧ Result.execution_log res = skipn (length log - 20) log.
Proof.
  intros Hnum Hasc.
  destruct (run_backtest_numeric feed w Hnum)
    as (log & w' & res & E & R & Erun & _ & _ & _ & _ & Hlog).
  exists log, res, w'. split; [done|]. split; [|by split].
  rewrite (sort_values_strictly_ascending feed Hasc) in R.
  by apply (replay_logged _ _ _ _ R).
Qed.

Lemma log_keeps_input_order_witness :
  forallb Row.numeric sample_feed = true
  ∧ strictly_ascending sample_feed
  ∧ ∃ log res w',
    for_rows (@sort_values stable_pandas sample_feed) []
      (start (engine 1 10 1000 1) (constant_generator 0.5)) = (Ok log, w')
    ∧ Forall2 logged_as sample_feed log
    ∧ @run_backtest stable_pandas sample_feed
        (start (engine 1 10 1000 1) (constant_generator 0.5)) = (Ok res, w')
    ∧ Result.execution_log res = skipn (length log - 20) log.
Proof.
  split; [reflexivity|]. split; [exact strictly_ascending_sample_feed|].
  apply (@log_keeps_input_order stable_pandas
           (start (engine 1 10 1000 1) (constant_generator 0.5)) sample_feed);
    [reflexivity|exact strictly_ascending_sample_feed].
Defined.

(** C8, refuted as stated: no tail size can be configured.  On the three
    events of [sample_feed] the result carries all three entries; a tail
    size of 2 would keep the last two only. *)
Lemma log_tail_is_not_configurable :
  ∃ res w,
    @run_backtest stable_pandas sample_feed
      (start (engine 1 10 1000 1) (constant_generator 0.5))
    = (Ok res, w)
    ∧ Result.execution_log res
      = [ Entry.mk 1 "79003893007240922565..." "BUY" (VFloat 100) (Float 100)
            (VFloat 0.5) EXECUTED;
          Entry.mk 2 "38865488008932950700..." "BUY" (VFloat 5) (Int 0)
            (VFloat 1) (SKIP_shares 5 10);
          Entry.mk 3 "79003893007240922565..." "SELL" (VFloat 40) (Float 40)
            (VFloat 0.5) EXECUTED ]
    ∧ last_items 2 (Result.execution_log res)
      = [ Entry.mk 2 "38865488008932950700..." "BUY" (VFloat 5) (Int 0)
            (VFloat 1) (SKIP_shares 5 10);
          Entry.mk 3 "79003893007240922565..." "SELL" (VFloat 40) (Float 40)
            (VFloat 0.5) EXECUTED ].
Proof.
  eexists _, _. split; [vm_compute; reflexivity|].
  split; vm_compute; reflexivity.
Qed.

(** C9. On the empty frame [run_backtest] raises nothing (the division of
    the execution rate is not evaluated) and returns all-zero aggregates:
    no trades, none executed, none skipped, rate [0], volume [0], no open
    position, an empty log; the engine and the generator are untouched. *)
Theorem empty_feed_all_zero `{Pandas} (s m x p : float) (g : Generator) :
  ∃ e0,
    BacktestEngine__init__ s m x p = Ok e0
    ∧ run_backtest [] (start e0 g)
      = (Ok {| Result.total_whale_trades := 0;
               Result.trades_executed := 0;
               Result.trades_skipped := 0;
               Result.execution_rate := Int 0;
               Result.total_volume_usd := 0;
               Result.open_positions := 0;
               Result.positions := ∅;
               Result.strategy_params := (s, m, x, p);
               Result.execution_log := [] |},
         start e0 g).
Proof.
  eexists. split; [reflexivity|].
  unfold run_backtest. rewrite sort_values_nil. reflexivity.
Qed.

(** C10. For an accepted trade whose side is any string other than ["BUY"],
    [execute_trade] subtracts the scaled shares from the token's position
    and leaves the entry lots as they were; with the side ["BUY"] it adds
    the scaled shares and appends the lot (scaled shares, price).  Either
    way the trade is counted and its scaled USD added to the volume. *)
Theorem non_buy_side_is_a_sell
    (token side : string) (s u : float) (price : value) (w : World) :
  side ≠ "BUY" →
  let e := self w in
  let scaled_shares := (s * scale_ratio e)%float in
  let scaled_usd := (u * scale_ratio e)%float in
  execute_trade token side (VFloat s) price (VFloat u) w
  = (Ok tt,
     mkWorld
       (mkEngine (scale_ratio e) (min_shares e) (max_position_usd e)
          (copy_probability e)
          (<[token := (position_of e token - scaled_shares)%float]> (positions e))
          (trades_executed e + 1) (trades_skipped e)
          (total_volume_usd e + scaled_usd)%float
          (entry_prices e))
       (np_random w))
  ∧ execute_trade token "BUY" (VFloat s) price (VFloat u) w
    = (Ok tt,
       mkWorld
         (mkEngine (scale_ratio e) (min_shares e) (max_position_usd e)
            (copy_probability e)
            (<[token := (position_of e token + scaled_shares)%float]> (positions e))
            (trades_executed e + 1) (trades_skipped e)
            (total_volume_usd e + scaled_usd)%float
            (<[token := default [] (entry_prices e !! token)
                          ++ [(scaled_shares, price)]]> (entry_prices e)))
         (np_random w)).
Proof.
  intros Hside. apply String.eqb_neq in Hside.
  destruct w as [e g]. unfold execute_trade. run_py.
  by rewrite Hside.
Qed.

Lemma non_buy_side_is_a_sell_witness :
  "HOLD" ≠ "BUY"
  ∧ execute_trade token_a "HOLD" (VFloat 30) VNone (VFloat 15)
      (start (engine 1 10 1000 1) (constant_generator 0))
    = (Ok tt,
       start (mkEngine 1 10 1000 1 {[ token_a := (-30)%float ]} 1 0 15 ∅)
         (constant_generator 0)).
Proof.
  split; [discriminate|].
  destruct (non_buy_side_is_a_sell token_a "HOLD" 30 15 VNone
              (start (engine 1 10 1000 1) (constant_generator 0)))
    as [E _]; [discriminate|].
  rewrite E. vm_compute. reflexivity.
Defined.

(** * Part V: more of the engine, and the functions around it *)

(** ** What a pass does to the lots, the volume and the generator *)

Lemma loop_body_audited r log w s u :
  Row.whale_shares r = VFloat s →
  Row.whale_usd r = VFloat u →
  ∃ en w',
    loop_body r log w = (Ok (log ++ [en]), w')
    ∧ pass r s u w w' en ∧ pass_ledger r s u w w' en.
Proof.
  intros Hs Hu.
  destruct (loop_body_numeric r log w s u Hs Hu) as (en & w' & E & P).
  exists en, w'. split; [exact E|]. split; [exact P|].
  revert E. unfold loop_body. rewrite Hs, Hu.
  destruct (should_copy_numeric s u w) as (msg & E & Hr & Hskip).
  rewrite (bind_ok _ _ _ _ _ E).
  unfold verdict, evaluate, gtb in *.
  destruct w as [e [smp k]]. unfold advance. cbn in *.
  assert (Hopen : ∀ (x : Entry.t) (v : World),
             (Ok (log ++ [x]), v) = (Ok (log ++ [en]), w') → x = en ∧ v = w').
  { intros x v [= Hlog ->]. apply app_inv_head in Hlog. by injection Hlog. }
  destruct (s * _ <? _)%float eqn:C1; cbn in *;
    [run_py; intros [<- <-]%Hopen; destruct msg; try discriminate Hr;
     split; unfold verdict, evaluate, gtb; cbn; rewrite ?C1; done|].
  destruct (_ <? u * _)%float eqn:C2; cbn in *;
    [run_py; intros [<- <-]%Hopen; destruct msg; try discriminate Hr;
     split; unfold verdict, evaluate, gtb; cbn; rewrite ?C1, ?C2; done|].
  destruct (_ <? smp k)%float eqn:C3; cbn in *;
    [run_py; intros [<- <-]%Hopen; destruct msg; try discriminate Hr;
     split; unfold verdict, evaluate, gtb; cbn; rewrite ?C1, ?C2, ?C3; done|].
  unfold execute_trade. run_py.
  destruct (String.eqb (Row.side r) "BUY") eqn:B; cbn;
    intros [<- <-]%Hopen;
    split; unfold verdict, evaluate, gtb; cbn; rewrite ?C1, ?C2, ?C3, ?B;
    done.
Qed.

Lemma for_rows_audited rows log w :
  forallb Row.numeric rows = true →
  ∃ ens w', for_rows rows log w = (Ok (log ++ ens), w') ∧ audited w rows ens w'.
Proof.
  revert log w. induction rows as [|r rows IH]; intros log w Hn; simpl.
  - exists [], w. rewrite app_nil_r. split; [done|constructor].
  - simpl in Hn. apply andb_prop in Hn as [Hr Hrows].
    destruct (numeric_cells r Hr) as (s & u & Hs & Hu).
    destruct (loop_body_audited r log w s u Hs Hu) as (en & w1 & E & P & L).
    destruct (IH (log ++ [en]) w1 Hrows) as (ens & w2 & E2 & R).
    exists (en :: ens), w2. split.
    + rewrite (bind_ok _ _ _ _ _ E), E2. by rewrite <- app_assoc.
    + econstructor; eauto.
Qed.

Lemma audited_replay w rows ens w' :
  audited w rows ens w' → replay w rows ens w'.
Proof. induction 1; econstructor; eauto. Qed.

Lemma lots_entry_default l : default [] (lots_entry l) = l.
Proof. by destruct l. Qed.

Lemma lots_entry_snoc l x : lots_entry (l ++ [x]) = Some (l ++ [x]).
Proof. by destruct l. Qed.

Lemma audited_lots t w rows ens w' l0 :
  audited w rows ens w' →
  entry_prices (self w) !! t = lots_entry l0 →
  entry_prices (self w') !! t
  = lots_entry (l0 ++ lots_of t (scale_ratio (self w)) rows ens).
Proof.
  intros A. revert l0.
  induction A as [|w r s u en w1 rows ens w2 Hs _ P L _ IH]; intros l0 H0.
  { simpl. by rewrite app_nil_r. }
  assert (Hscale : scale_ratio (self w1) = scale_ratio (self w)).
  { pose proof (pass_params _ _ _ _ _ _ P) as HP. unfold params in HP.
    by injection HP. }
  simpl. rewrite Hs. pose proof (ledger_lots _ _ _ _ _ _ L) as Hl.
  destruct (executed en && String.eqb (Row.side r) "BUY"); simpl.
  - destruct (String.eqb_spec (Row.token_id r) t) as [Heq|Hne].
    + rewrite app_assoc, <- Hscale. apply IH.
      rewrite Hscale, Hl, Heq, lookup_insert_eq, H0, lots_entry_default.
      symmetry. apply lots_entry_snoc.
    + rewrite <- Hscale. apply IH. by rewrite Hl, lookup_insert_ne.
  - rewrite <- Hscale. apply IH. by rewrite Hl.
Qed.

Lemma audited_volume w rows ens w' :
  audited w rows ens w' →
  total_volume_usd (self w')
  = volume_of (scale_ratio (self w)) (total_volume_usd (self w)) rows ens.
Proof.
  induction 1 as [|w r s u en w1 rows ens w2 _ Hu P L _ IH]; [done|].
  assert (Hscale : scale_ratio (self w1) = scale_ratio (self w)).
  { pose proof (pass_params _ _ _ _ _ _ P) as HP. unfold params in HP.
    by injection HP. }
  simpl. rewrite Hu, IH, Hscale, (ledger_volume _ _ _ _ _ _ L).
  by destruct (executed en).
Qed.

Lemma audited_draws w rows ens w' :
  audited w rows ens w' →
  drawn (np_random w')
  = length (List.filter reached_gate ens) + drawn (np_random w)
  ∧ samples (np_random w') = samples (np_random w).
Proof.
  induction 1 as [|w r s u en w1 rows ens w2 _ _ _ L _ [IHd IHs]]; [done|].
  rewrite IHd, IHs, (ledger_drawn _ _ _ _ _ _ L), (ledger_samples _ _ _ _ _ _ L).
  simpl. split; [|done]. destruct (reached_gate en); simpl; lia.
Qed.

Lemma filter_length_le {A} (f : A → bool) (l : list A) :
  length (List.filter f l) ≤ length l.
Proof. induction l as [|x l IH]; simpl; [lia|]. destruct (f x); simpl; lia. Qed.

(** What [summary] puts in the dictionary it returns. *)
Lemma summary_inv e n log res :
  summary e n log = Ok res →
  Result.total_whale_trades res = n
  ∧ Result.trades_executed res = trades_executed e
  ∧ Result.trades_skipped res = trades_skipped e
  ∧ Result.total_volume_usd res = py_round (total_volume_usd e) 2
  ∧ Result.open_positions res
    = Z.of_nat (length (List.filter is_open (snd <$> map_to_list (positions e))))
  ∧ Result.positions res
    = (λ v, py_round v 4) <$> filter (λ kv, Is_true (is_open kv.2)) (positions e)
  ∧ Result.strategy_params res = params e
  ∧ Result.execution_log res = last_items 20 log.
Proof.
  unfold summary.
  destruct (if (0 <? n)%Z then _ else _) as [rate|x]; [|done].
  by intros [= <-].
Qed.

(** A run that returns went through the loop and the summary. *)
Lemma run_backtest_inv `{Pandas} feed w res w' :
  run_backtest feed w = (Ok res, w') →
  ∃ log,
    for_rows (sort_values feed) [] w = (Ok log, w')
    ∧ summary (self w') (Z.of_nat (length (sort_values feed))) log = Ok res.
Proof.
  unfold run_backtest, mbind, Py_bind, get_self, lift.
  destruct (for_rows (sort_values feed) [] w) as [[log|x] w1]; [|done].
  destruct (summary _ _ _) as [r|x] eqn:S; [|done].
  intros [= <- <-]. by exists log.
Qed.

(** A run on a frame of numbers, with its audit. *)
Lemma run_backtest_audited `{Pandas} feed w :
  forallb Row.numeric feed = true →
  ∃ log w' res,
    for_rows (sort_values feed) [] w = (Ok log, w')
    ∧ audited w (sort_values feed) log w'
    ∧ run_backtest feed w = (Ok res, w')
    ∧ summary (self w') (Z.of_nat (length (sort_values feed))) log = Ok res.
Proof.
  intros Hnum. pose proof (sort_values_perm feed) as HP.
  destruct (for_rows_audited _ [] w (forallb_perm _ _ _ HP Hnum))
    as (log & w' & E & A).
  change ([] ++ log) with log in E.
  destruct (run_backtest_numeric feed w Hnum)
    as (log' & w'' & res & E' & _ & Erun & _).
  rewrite E in E'. injection E' as <- <-.
  exists log, w', res. repeat split; try done.
  destruct (run_backtest_inv _ _ _ _ Erun) as (log2 & E2 & S).
  rewrite E in E2. by injection E2 as <-.
Qed.

(** ** The ledger beyond the positions *)

(** X1. On a fresh engine and a frame of numbers, after any prefix of the
    sorted frame, the entry lots of every token are exactly the pairs
    (scaled shares, price) of its executed [BUY] events, in order; a token
    has a key in [entry_prices] only once it has such an event, so skipped
    events and events of any other side never leave a lot. *)
Theorem lots_are_the_executed_buys `{Pandas}
    (s m x p : float) (g : Generator) (feed : list Row.t) (n : nat)
    (t : string) :
  forallb Row.numeric feed = true →
  ∃ e0 log w,
    BacktestEngine__init__ s m x p = Ok e0
    ∧ for_rows (take n (sort_values feed)) [] (start e0 g) = (Ok log, w)
    ∧ entry_prices (self w) !! t
      = lots_entry (lots_of t s (take n (sort_values feed)) log).
Proof.
  intros Hnum. pose proof (sort_values_perm feed) as HP.
  destruct (for_rows_audited _ [] (start (engine s m x p) g)
              (numeric_take n _ (forallb_perm _ _ _ HP Hnum)))
    as (log & w & E & A).
  exists (engine s m x p), log, w. split; [done|]. split; [done|].
  by apply (audited_lots t _ _ _ _ [] A).
Qed.

Lemma lots_are_the_executed_buys_witness :
  forallb Row.numeric sample_feed = true
  ∧ ∃ e0 log w,
    BacktestEngine__init__ 0.5 10 1000 1 = Ok e0
    ∧ for_rows (take 3 (@sort_values stable_pandas sample_feed)) []
        (start e0 (constant_generator 0.5)) = (Ok log, w)
    ∧ entry_prices (self w) !! token_a
      = lots_entry
          (lots_of token_a 0.5 (take 3 (@sort_values stable_pandas sample_feed))
             log).
Proof.
  split; [reflexivity|].
  apply (@lots_are_the_executed_buys stable_pandas 0.5 10 1000 1
           (constant_generator 0.5) sample_feed 3 token_a).
  reflexivity.
Defined.

(** X2. On a fresh engine and a frame of numbers, the volume of the engine
    after the run is the scaled USD ([whale_usd * scale_ratio]) of the
    executed events, added in order from [0.0]; skipped events add nothing;
    the result reports that sum rounded to two decimals. *)
Theorem volume_is_the_executed_usd `{Pandas}
    (s m x p : float) (g : Generator) (feed : list Row.t) :
  forallb Row.numeric feed = true →
  ∃ e0 log res w,
    BacktestEngine__init__ s m x p = Ok e0
    ∧ for_rows (sort_values feed) [] (start e0 g) = (Ok log, w)
    ∧ run_backtest feed (start e0 g) = (Ok res, w)
    ∧ total_volume_usd (self w) = volume_of s 0 (sort_values feed) log
    ∧ Result.total_volume_usd res
      = py_round (volume_of s 0 (sort_values feed) log) 2.
Proof.
  intros Hnum.
  destruct (run_backtest_audited feed (start (engine s m x p) g) Hnum)
    as (log & w & res & E & A & Erun & S).
  exists (engine s m x p), log, res, w. repeat split; try done.
  - apply (audited_volume _ _ _ _ A).
  - destruct (summary_inv _ _ _ _ S) as (_ & _ & _ & -> & _).
    by rewrite (audited_volume _ _ _ _ A).
Qed.

Lemma volume_is_the_executed_usd_witness :
  forallb Row.numeric sample_feed = true
  ∧ ∃ e0 log res w,
    BacktestEngine__init__ 0.5 10 1000 1 = Ok e0
    ∧ for_rows (@sort_values stable_pandas sample_feed) []
        (start e0 (constant_generator 0.5)) = (Ok log, w)
    ∧ @run_backtest stable_pandas sample_feed
        (start e0 (constant_generator 0.5)) = (Ok res, w)
    ∧ total_volume_usd (self w)
      = volume_of 0.5 0 (@sort_values stable_pandas sample_feed) log
    ∧ Result.total_volume_usd res
      = py_round (volume_of 0.5 0 (@sort_values stable_pandas sample_feed) log) 2.
Proof.
  split; [reflexivity|].
  apply (@volume_is_the_executed_usd stable_pandas 0.5 10 1000 1
           (constant_generator 0.5) sample_feed).
  reflexivity.
Defined.

(** X3. A run on a frame of numbers draws one sample for each event that
    reaches the probability rule (the executed ones and those skipped on the
    sample) and none for an event rejected on its size: the generator ends
    advanced by exactly the number of such log entries, which is at most
    the number of events. *)
Theorem one_draw_per_event_at_the_gate `{Pandas}
    (w : World) (feed : list Row.t) :
  forallb Row.numeric feed = true →
  ∃ log res w',
    for_rows (sort_values feed) [] w = (Ok log, w')
    ∧ run_backtest feed w = (Ok res, w')
    ∧ drawn (np_random w')
      = length (List.filter reached_gate log) + drawn (np_random w)
    ∧ drawn (np_random w') ≤ length feed + drawn (np_random w)
    ∧ samples (np_random w') = samples (np_random w).
Proof.
  intros Hnum.
  destruct (run_backtest_audited feed w Hnum)
    as (log & w' & res & E & A & Erun & _).
  destruct (audited_draws _ _ _ _ A) as [Hd Hs].
  exists log, res, w'. repeat split; try done.
  rewrite Hd. pose proof (filter_length_le reached_gate log).
  rewrite (replay_length _ _ _ _ (audited_replay _ _ _ _ A)) in H0.
  rewrite (Permutation_length (sort_values_perm feed)) in H0. lia.
Qed.

Lemma one_draw_per_event_at_the_gate_witness :
  forallb Row.numeric sample_feed = true
  ∧ ∃ log res w',
    for_rows (@sort_values stable_pandas sample_feed) []
      (start (engine 1 10 1000 1) (constant_generator 0.5)) = (Ok log, w')
    ∧ @run_backtest stable_pandas sample_feed
        (start (engine 1 10 1000 1) (constant_generator 0.5)) = (Ok res, w')
    ∧ drawn (np_random w')
      = length (List.filter reached_gate log)
        + drawn (np_random (start (engine 1 10 1000 1) (constant_generator 0.5)))
    ∧ drawn (np_random w')
      ≤ length sample_feed
        + drawn (np_random (start (engine 1 10 1000 1) (constant_generator 0.5)))
    ∧ samples (np_random w')
      = samples (np_random (start (engine 1 10 1000 1) (constant_generator 0.5))).
Proof.
  split; [reflexivity|].
  apply (@one_draw_per_event_at_the_gate stable_pandas
           (start (engine 1 10 1000 1) (constant_generator 0.5)) sample_feed).
  reflexivity.
Defined.

(** X4. [run_backtest] does not reset the engine: counters carry over from
    one call to the next.  After a first run over [feed1], a second run on
    the same engine over [feed2] reports [trades_executed + trades_skipped]
    equal to the events of both runs, while its [total_whale_trades] counts
    the events of [feed2] only. *)
Theorem counters_carry_over_between_runs `{Pandas}
    (s m x p : float) (g : Generator) (feed1 feed2 : list Row.t) :
  forallb Row.numeric feed1 = true →
  forallb Row.numeric feed2 = true →
  ∃ e0 res1 w1 res2 w2,
    BacktestEngine__init__ s m x p = Ok e0
    ∧ run_backtest feed1 (start e0 g) = (Ok res1, w1)
    ∧ run_backtest feed2 w1 = (Ok res2, w2)
    ∧ Result.total_whale_trades res2 = Z.of_nat (length feed2)
    ∧ (Result.trades_executed res2 + Result.trades_skipped res2
       = Z.of_nat (length feed1) + Z.of_nat (length feed2))%Z.
Proof.
  intros Hn1 Hn2.
  destruct (run_backtest_numeric feed1 (start (engine s m x p) g) Hn1)
    as (log1 & w1 & res1 & _ & R1 & Erun1 & _).
  destruct (run_backtest_numeric feed2 w1 Hn2)
    as (log2 & w2 & res2 & _ & R2 & Erun2 & Ht & Hx & Hk & _).
  exists (engine s m x p), res1, w1, res2, w2. repeat split; try done.
  rewrite Hx, Hk, (replay_counters _ _ _ _ R2), (replay_counters _ _ _ _ R1).
  rewrite !(Permutation_length (sort_values_perm _)). simpl. lia.
Qed.

Lemma counters_carry_over_between_runs_witness :
  forallb Row.numeric sample_feed = true
  ∧ forallb Row.numeric twin_feed = true
  ∧ ∃ e0 res1 w1 res2 w2,
    BacktestEngine__init__ 1 10 1000 1 = Ok e0
    ∧ @run_backtest stable_pandas sample_feed
        (start e0 (constant_generator 0.5)) = (Ok res1, w1)
    ∧ @run_backtest stable_pandas twin_feed w1 = (Ok res2, w2)
    ∧ Result.total_whale_trades res2 = Z.of_nat (length twin_feed)
    ∧ (Result.trades_executed res2 + Result.trades_skipped res2
       = Z.of_nat (length sample_feed) + Z.of_nat (length twin_feed))%Z.
Proof.
  split; [reflexivity|]. split; [reflexivity|].
  apply (@counters_carry_over_between_runs stable_pandas 1 10 1000 1
           (constant_generator 0.5) sample_feed twin_feed); reflexivity.
Defined.

(** ** The ledger read off the log alone *)

(** X20. The net shares of a token can be recomputed from the log alone
    when its log key (its first 20 characters followed by three dots, all
    that an entry records of the token) is the key of no other token: on a
    fresh engine and a frame of numbers, after any prefix of the sorted
    frame, the net shares of such a token equal the signed sum, in log order
    and starting from 0, of the copied shares of the executed entries logged
    under that key.  Each executed entry's copied shares are its observed
    shares times [scale_ratio]. *)
Theorem ledger_matches_log `{Pandas}
    (s m x p : float) (g : Generator) (feed : list Row.t) (n : nat)
    (t : string) :
  forallb Row.numeric feed = true →
  keyed_apart t (take n (sort_values feed)) = true →
  ∃ e0 log w,
    BacktestEngine__init__ s m x p = Ok e0
    ∧ for_rows (take n (sort_values feed)) [] (start e0 g) = (Ok log, w)
    ∧ position_of (self w) t = signed_sum (short_token t) log
    ∧ Forall (λ en, executed en = true →
                    ∃ sh, Entry.whale_shares en = VFloat sh
                          ∧ Entry.our_shares en = Float (sh * s)) log.
Proof.
  intros Hnum Hkey. pose proof (sort_values_perm feed) as HP.
  destruct (for_rows_from_empty _ (start (engine s m x p) g)
              (numeric_take n _ (forallb_perm _ _ _ HP Hnum)))
    as (log & w & E & R).
  exists (engine s m x p), log, w. split; [done|]. split; [done|]. split.
  - by rewrite (replay_ledger t _ _ _ _ R).
  - apply (replay_copied_shares _ _ _ _ R).
Qed.

Lemma ledger_matches_log_witness :
  forallb Row.numeric sample_feed = true
  ∧ keyed_apart token_a (take 3 (@sort_values stable_pandas sample_feed)) = true
  ∧ ∃ e0 log w,
    BacktestEngine__init__ 0.5 10 1000 1 = Ok e0
    ∧ for_rows (take 3 (@sort_values stable_pandas sample_feed)) []
        (start e0 (constant_generator 0.5)) = (Ok log, w)
    ∧ position_of (self w) token_a = signed_sum (short_token token_a) log
    ∧ Forall (λ en, executed en = true →
                    ∃ sh, Entry.whale_shares en = VFloat sh
                          ∧ Entry.our_shares en = Float (sh * 0.5)) log.
Proof.
  split; [reflexivity|]. split; [reflexivity|].
  apply (@ledger_matches_log stable_pandas 0.5 10 1000 1
           (constant_generator 0.5) sample_feed 3 token_a); reflexivity.
Defined.

(** The condition on the key is needed: two tokens that share their first
    20 characters are logged under one key.  After a buy of 100 shares of
    each, the ledger holds 100 shares of [token_a], and the executed entries
    logged under its key sum to 200. *)
Lemma tokens_with_one_log_key :
  ∃ log w,
    for_rows (@sort_values stable_pandas twin_feed) []
      (start (engine 1 10 1000 1) (constant_generator 0.5))
    = (Ok log, w)
    ∧ Entry.token_id <$> log
      = [ short_token token_a; short_token token_a ]
    ∧ position_of (self w) token_a = 100%float
    ∧ signed_sum (short_token token_a) log = 200%float.
Proof.
  eexists _, _. split; [vm_compute; reflexivity|].
  repeat split; vm_compute; reflexivity.
Qed.

(** ** The order of the input frame *)

Lemma sorted_distinct_is_strict (l : list Row.t) :
  StronglySorted (λ a b, (Row.timestamp_ms a <= Row.timestamp_ms b)%Z) l →
  NoDup (Row.timestamp_ms <$> l) →
  strictly_ascending l.
Proof.
  induction 1 as [|a l Hs IH Ha]; intros Hnd; [constructor|].
  rewrite fmap_cons in Hnd. apply NoDup_cons in Hnd as [Hnotin Hnd].
  constructor; [by apply IH|].
  rewrite (Forall_forall (λ y, (_ <= Row.timestamp_ms y)%Z)) in Ha.
  rewrite (Forall_forall (λ y, (_ < Row.timestamp_ms y)%Z)). intros y Hy.
  specialize (Ha y Hy).
  assert (Row.timestamp_ms a ≠ Row.timestamp_ms y); [|lia].
  intros Heq. apply Hnotin. rewrite Heq. by apply list_elem_of_fmap_2.
Qed.

Lemma sort_values_shuffled `{Pandas} (feed1 feed2 : list Row.t) :
  Permutation feed1 feed2 →
  NoDup (Row.timestamp_ms <$> feed1) →
  sort_values feed1 = sort_values feed2.
Proof.
  intros HP Hnd. apply sorted_perm_unique.
  - rewrite (sort_values_perm feed1), HP. symmetry. apply sort_values_perm.
  - apply sort_values_sorted.
  - apply sorted_distinct_is_strict; [apply sort_values_sorted|].
    by rewrite (sort_values_perm feed2), <- HP.
Qed.

(** X5. [run_backtest] sorts the frame it is given: when no two events share
    a timestamp, any rearrangement of the rows gives the same result and
    leaves the engine and the generator in the same state, whatever the
    cells hold (a run that raises, raises alike). *)
Theorem shuffling_the_frame_changes_nothing `{Pandas}
    (w : World) (feed1 feed2 : list Row.t) :
  Permutation feed1 feed2 →
  NoDup (Row.timestamp_ms <$> feed1) →
  run_backtest feed1 w = run_backtest feed2 w.
Proof.
  intros HP Hnd. unfold run_backtest.
  by rewrite (sort_values_shuffled feed1 feed2 HP Hnd).
Qed.

Lemma shuffling_the_frame_changes_nothing_witness :
  Permutation sample_feed (rev sample_feed)
  ∧ NoDup (Row.timestamp_ms <$> sample_feed)
  ∧ @run_backtest stable_pandas sample_feed
      (start (engine 1 10 1000 1) (constant_generator 0.5))
    = @run_backtest stable_pandas (rev sample_feed)
        (start (engine 1 10 1000 1) (constant_generator 0.5)).
Proof.
  assert (HP : Permutation sample_feed (rev sample_feed))
    by apply Permutation_rev.
  assert (Hnd : NoDup (Row.timestamp_ms <$> sample_feed))
    by (apply (bool_decide_unpack _); vm_compute; exact I).
  split; [exact HP|]. split; [exact Hnd|].
  exact (@shuffling_the_frame_changes_nothing stable_pandas
           (start (engine 1 10 1000 1) (constant_generator 0.5))
           sample_feed (rev sample_feed) HP Hnd).
Defined.

Lemma logged_timestamps rows ens :
  Forall2 logged_as rows ens →
  Entry.timestamp_ms <$> ens = Row.timestamp_ms <$> rows.
Proof.
  induction 1 as [|r en rows ens Hl _ IH]; [done|].
  rewrite !fmap_cons, IH. f_equal. apply Hl.
Qed.

Lemma sorted_timestamps rows :
  StronglySorted (λ a b, (Row.timestamp_ms a <= Row.timestamp_ms b)%Z) rows →
  StronglySorted Z.le (Row.timestamp_ms <$> rows).
Proof.
  induction 1 as [|a l _ IH Ha]; [constructor|].
  rewrite fmap_cons. constructor; [exact IH|].
  rewrite Forall_fmap. exact Ha.
Qed.

Lemma sorted_skipn (n : nat) (l : list Z) :
  StronglySorted Z.le l → StronglySorted Z.le (skipn n l).
Proof.
  intros Hs. revert n. induction Hs as [|a l Hs IH Ha]; intros [|n]; simpl;
    try constructor; auto.
Qed.

(** X6. Whatever the order of the rows of a frame of numbers, the execution
    log comes out in ascending timestamp order: its timestamps are those of
    the sorted frame, a rearrangement of the input's; so is the tail of it
    that the result carries. *)
Theorem log_is_in_timestamp_order `{Pandas} (w : World) (feed : list Row.t) :
  forallb Row.numeric feed = true →
  ∃ log res w',
    for_rows (sort_values feed) [] w = (Ok log, w')
    ∧ run_backtest feed w = (Ok res, w')
    ∧ StronglySorted Z.le (Entry.timestamp_ms <$> log)
    ∧ Permutation (Entry.timestamp_ms <$> log) (Row.timestamp_ms <$> feed)
    ∧ StronglySorted Z.le (Entry.timestamp_ms <$> Result.execution_log res).
Proof.
  intros Hnum.
  destruct (run_backtest_numeric feed w Hnum)
    as (log & w' & res & E & R & Erun & _ & _ & _ & _ & Hlog).
  exists log, res, w'. split; [done|]. split; [done|].
  assert (Hs : StronglySorted Z.le (Entry.timestamp_ms <$> log)).
  { rewrite (logged_timestamps _ _ (replay_logged _ _ _ _ R)).
    apply sorted_timestamps, sort_values_sorted. }
  split; [exact Hs|]. split.
  - rewrite (logged_timestamps _ _ (replay_logged _ _ _ _ R)).
    apply fmap_Permutation, sort_values_perm.
  - rewrite Hlog. unfold last_items.
    change (@skipn Entry.t) with (@drop Entry.t). rewrite fmap_drop.
    by apply sorted_skipn.
Qed.

Lemma log_is_in_timestamp_order_witness :
  forallb Row.numeric (rev sample_feed) = true
  ∧ ∃ log res w',
    for_rows (@sort_values stable_pandas (rev sample_feed)) []
      (start (engine 1 10 1000 1) (constant_generator 0.5)) = (Ok log, w')
    ∧ @run_backtest stable_pandas (rev sample_feed)
        (start (engine 1 10 1000 1) (constant_generator 0.5)) = (Ok res, w')
    ∧ StronglySorted Z.le (Entry.timestamp_ms <$> log)
    ∧ Permutation (Entry.timestamp_ms <$> log)
        (Row.timestamp_ms <$> rev sample_feed)
    ∧ StronglySorted Z.le (Entry.timestamp_ms <$> Result.execution_log res).
Proof.
  split; [reflexivity|].
  apply (@log_is_in_timestamp_order stable_pandas
           (start (engine 1 10 1000 1) (constant_generator 0.5))
           (rev sample_feed)).
  reflexivity.
Defined.

(** ** The summary *)

Lemma length_filter_values (f : float → bool) (l : list (string * float)) :
  length (filter (λ kv : string * float, Is_true (f kv.2)) l)
  = length (List.filter f (snd <$> l)).
Proof.
  induction l as [|[k v] l IH]; [done|].
  rewrite filter_cons, fmap_cons. simpl.
  destruct (decide (Is_true (f v))) as [Hv|Hv]; destruct (f v); simpl;
    try done; by rewrite IH.
Qed.

Lemma size_filter_values (f : float → bool) (m : gmap string float) :
  size (filter (λ kv : string * float, Is_true (f kv.2)) m)
  = length (List.filter f (snd <$> map_to_list m)).
Proof.
  rewrite map_filter_alt, map_size_list_to_map.
  - apply length_filter_values.
  - eapply sublist_NoDup; [apply (NoDup_fst_map_to_list m)|].
    apply fmap_sublist, sublist_filter.
Qed.

(** X7. In every result [run_backtest] returns, [open_positions] is the
    number of entries of [positions], and each entry of [positions] is the
    value, rounded to four decimals, that the engine holds for that token,
    a value of magnitude above [0.0001]. *)
Theorem open_positions_counts_the_reported `{Pandas}
    (w w' : World) (feed : list Row.t) (res : Result.t) :
  run_backtest feed w = (Ok res, w') →
  Result.open_positions res = Z.of_nat (size (Result.positions res))
  ∧ ∀ t v,
      Result.positions res !! t = Some v ↔
      ∃ v0, positions (self w') !! t = Some v0
            ∧ is_open v0 = true ∧ v = py_round v0 4.
Proof.
  intros Erun. destruct (run_backtest_inv _ _ _ _ Erun) as (log & _ & S).
  destruct (summary_inv _ _ _ _ S) as (_ & _ & _ & _ & -> & -> & _).
  split.
  - by rewrite map_size_fmap, size_filter_values.
  - intros t v. rewrite lookup_fmap, fmap_Some. split.
    + intros (v0 & [Hv0 Hopen]%map_lookup_filter_Some & ->).
      exists v0. repeat split; [done|]. by apply Is_true_true.
    + intros (v0 & Hv0 & Hopen & ->). exists v0. split; [|done].
      apply map_lookup_filter_Some. split; [done|]. by apply Is_true_true.
Qed.

Lemma open_positions_counts_the_reported_witness :
  ∃ res w',
    @run_backtest stable_pandas sample_feed
      (start (engine 1 10 1000 1) (constant_generator 0.5)) = (Ok res, w')
    ∧ Result.open_positions res = Z.of_nat (size (Result.positions res))
    ∧ ∀ t v,
        Result.positions res !! t = Some v ↔
        ∃ v0, positions (self w') !! t = Some v0
              ∧ is_open v0 = true ∧ v = py_round v0 4.
Proof.
  eexists _, _. split; [vm_compute; reflexivity|].
  apply (@open_positions_counts_the_reported stable_pandas
           (start (engine 1 10 1000 1) (constant_generator 0.5)) _
           sample_feed).
  vm_compute. reflexivity.
Defined.

(** X8. The result of a run on a frame of numbers carries at most 20 log
    entries: as many as there are events when there are fewer than 20,
    exactly 20 otherwise. *)
Theorem result_log_has_at_most_twenty_entries `{Pandas}
    (w : World) (feed : list Row.t) :
  forallb Row.numeric feed = true →
  ∃ res w',
    run_backtest feed w = (Ok res, w')
    ∧ length (Result.execution_log res) = Nat.min 20 (length feed).
Proof.
  intros Hnum.
  destruct (run_backtest_numeric feed w Hnum)
    as (log & w' & res & _ & R & Erun & _ & _ & _ & _ & Hlog).
  exists res, w'. split; [done|].
  rewrite Hlog. unfold last_items. rewrite length_skipn.
  rewrite (replay_length _ _ _ _ R), (Permutation_length (sort_values_perm feed)).
  lia.
Qed.

Lemma result_log_has_at_most_twenty_entries_witness :
  forallb Row.numeric sample_feed = true
  ∧ ∃ res w',
    @run_backtest stable_pandas sample_feed
      (start (engine 1 10 1000 1) (constant_generator 0.5)) = (Ok res, w')
    ∧ length (Result.execution_log res) = Nat.min 20 (length sample_feed).
Proof.
  split; [reflexivity|].
  apply (@result_log_has_at_most_twenty_entries stable_pandas
           (start (engine 1 10 1000 1) (constant_generator 0.5)) sample_feed).
  reflexivity.
Defined.

(** ** What the methods never do *)

(** X9. [should_copy] never changes the engine, whatever the two cells hold
    and whether it returns or raises; it draws at most one sample, and when
    it raises (always a [TypeError]) it has drawn none. *)
Theorem should_copy_never_touches_the_engine (v1 v2 : value) (w : World) :
  self (should_copy v1 v2 w).2 = self w
  ∧ samples (np_random (should_copy v1 v2 w).2) = samples (np_random w)
  ∧ (drawn (np_random (should_copy v1 v2 w).2) = drawn (np_random w)
     ∨ drawn (np_random (should_copy v1 v2 w).2) = S (drawn (np_random w)))
  ∧ ∀ x, (should_copy v1 v2 w).1 = Raise x →
         x = TypeError ∧ (should_copy v1 v2 w).2 = w.
Proof.
  destruct w as [e [smp k]]. unfold should_copy. run_py.
  assert (Hraise : ∀ (v : World) (x : exn),
             @Raise (bool * message) TypeError = Raise x →
             x = TypeError ∧ v = v) by (by intros v x [= <-]).
  destruct v1 as [s| |]; cbn;
    try (split; [done|]; split; [done|]; split; [by left|]; apply Hraise).
  destruct (s * _ <? _)%float; cbn;
    [split; [done|]; split; [done|]; split; [by left|]; done|].
  destruct v2 as [u| |]; cbn;
    try (split; [done|]; split; [done|]; split; [by left|]; apply Hraise).
  destruct (_ <? u * _)%float; cbn;
    [split; [done|]; split; [done|]; split; [by left|]; done|].
  destruct (_ <? smp k)%float; cbn;
    (split; [done|]; split; [done|]; split; [by right|]; done).
Qed.

(** X10. [execute_trade] changes nothing when it fails: if the shares or
    the USD value it is given is not a number, it raises [TypeError] before
    any attribute of the engine is written, for every side. *)
Theorem execute_trade_fails_before_it_writes
    (token side : string) (shares price usd : value) (w : World) :
  is_float shares && is_float usd = false →
  execute_trade token side shares price usd w = (Raise TypeError, w).
Proof.
  destruct w as [e g]. unfold execute_trade. run_py.
  by destruct shares, usd.
Qed.

Lemma execute_trade_fails_before_it_writes_witness :
  is_float (VFloat 100) && is_float (VStr "n/a") = false
  ∧ execute_trade token_a "BUY" (VFloat 100) (VFloat 0.5) (VStr "n/a")
      (start (engine 1 10 1000 1) (constant_generator 0.5))
    = (Raise TypeError, start (engine 1 10 1000 1) (constant_generator 0.5)).
Proof.
  split; [reflexivity|].
  apply (execute_trade_fails_before_it_writes token_a "BUY" (VFloat 100)
           (VFloat 0.5) (VStr "n/a")). reflexivity.
Defined.

(** ** The probability rule at its ends *)

(** X11. When every sample exceeds [copy_probability], a run on a fresh
    engine over a frame of numbers copies nothing: no trade is executed,
    every event is skipped, and positions, lots and volume stay empty.  For
    [copy_probability = 0] this is the case as long as no sample is exactly
    [0.0]. *)
Theorem nothing_copied_when_samples_exceed_probability `{Pandas}
    (s m x p : float) (g : Generator) (feed : list Row.t) :
  forallb Row.numeric feed = true →
  (∀ i, gtb (samples g i) p = true) →
  ∃ e0 res w,
    BacktestEngine__init__ s m x p = Ok e0
    ∧ run_backtest feed (start e0 g) = (Ok res, w)
    ∧ Result.trades_executed res = 0%Z
    ∧ Result.trades_skipped res = Z.of_nat (length feed)
    ∧ Result.open_positions res = 0%Z
    ∧ Result.positions res = ∅
    ∧ Result.total_volume_usd res = 0%float
    ∧ positions (self w) = ∅
    ∧ entry_prices (self w) = ∅.
Proof.
  intros Hnum Hsmp.
  destruct (run_backtest_audited feed (start (engine s m x p) g) Hnum)
    as (log & w & res & E & A & Erun & S).
  pose proof (audited_replay _ _ _ _ A) as R.
  destruct (replay_all_skipped _ _ _ _ R Hsmp) as (Hx & Hp & Hv & Hl & _).
  pose proof (replay_counters _ _ _ _ R) as Hc.
  destruct (summary_inv _ _ _ _ S) as (_ & Rx & Rk & Rv & Ro & Rp & _).
  exists (engine s m x p), res, w.
  rewrite Rx, Rk, Rv, Ro, Rp, Hp, Hv, Hl.
  rewrite Hx in Hc |- *. simpl in Hc |- *.
  rewrite (Permutation_length (sort_values_perm feed)) in Hc.
  repeat split; done.
Qed.

Lemma nothing_copied_when_samples_exceed_probability_witness :
  forallb Row.numeric sample_feed = true
  ∧ (∀ i, gtb (samples (constant_generator 0.5) i) 0 = true)
  ∧ ∃ e0 res w,
    BacktestEngine__init__ 1 10 1000 0 = Ok e0
    ∧ @run_backtest stable_pandas sample_feed
        (start e0 (constant_generator 0.5)) = (Ok res, w)
    ∧ Result.trades_executed res = 0%Z
    ∧ Result.trades_skipped res = Z.of_nat (length sample_feed)
    ∧ Result.open_positions res = 0%Z
    ∧ Result.positions res = ∅
    ∧ Result.total_volume_usd res = 0%float
    ∧ positions (self w) = ∅
    ∧ entry_prices (self w) = ∅.
Proof.
  split; [reflexivity|]. split; [intros i; reflexivity|].
  apply (@nothing_copied_when_samples_exceed_probability stable_pandas
           1 10 1000 0 (constant_generator 0.5) sample_feed);
    [reflexivity|intros i; reflexivity].
Defined.

(** ** The rules at their thresholds, and on NaN *)

Lemma ltb_irrefl (x : float) : (x <? x)%float = false.
Proof.
  destruct (x <? x)%float eqn:E; [|done].
  pose proof (ltb_asym _ _ E) as E'. unfold gtb in E'. congruence.
Qed.

(** X12. The three thresholds are inclusive: an event whose scaled shares
    equal [min_shares], whose scaled USD equals [max_position_usd] and for
    which the sample drawn equals [copy_probability] is copied. *)
Theorem thresholds_are_inclusive (s u : float) (w : World) :
  (s * scale_ratio (self w))%float = min_shares (self w) →
  (u * scale_ratio (self w))%float = max_position_usd (self w) →
  samples (np_random w) (drawn (np_random w)) = copy_probability (self w) →
  should_copy (VFloat s) (VFloat u) w = (Ok (true, COPY), advance 1 w).
Proof.
  destruct w as [e [smp k]]. cbn. intros H1 H2 H3.
  unfold should_copy. run_py.
  rewrite H1, ltb_irrefl. cbn. rewrite H2, ltb_irrefl. cbn.
  by rewrite H3, ltb_irrefl.
Qed.

Lemma thresholds_are_inclusive_witness :
  (10 * scale_ratio (engine 1 10 1000 0.5))%float
  = min_shares (engine 1 10 1000 0.5)
  ∧ (1000 * scale_ratio (engine 1 10 1000 0.5))%float
    = max_position_usd (engine 1 10 1000 0.5)
  ∧ samples (constant_generator 0.5) 0 = copy_probability (engine 1 10 1000 0.5)
  ∧ should_copy (VFloat 10) (VFloat 1000)
      (start (engine 1 10 1000 0.5) (constant_generator 0.5))
    = (Ok (true, COPY),
       advance 1 (start (engine 1 10 1000 0.5) (constant_generator 0.5))).
Proof.
  split; [reflexivity|]. split; [reflexivity|]. split; [reflexivity|].
  apply (thresholds_are_inclusive 10 1000
           (start (engine 1 10 1000 0.5) (constant_generator 0.5)));
    reflexivity.
Defined.

Lemma nan_mul (x : float) : (nan * x)%float = nan.
Proof.
  rewrite <- (SF2Prim_Prim2SF (nan * x)), mul_spec.
  change (Prim2SF nan) with S754_nan. reflexivity.
Qed.

Lemma nan_not_below (x : float) : (nan <? x)%float = false.
Proof. rewrite ltb_spec. change (Prim2SF nan) with S754_nan. reflexivity. Qed.

Lemma nan_not_above (x : float) : gtb nan x = false.
Proof.
  unfold gtb. rewrite ltb_spec. change (Prim2SF nan) with S754_nan.
  unfold SFltb, SFcompare. by destruct (Prim2SF x).
Qed.

Lemma add_nan (x : float) : (x + nan)%float = nan.
Proof.
  rewrite <- (SF2Prim_Prim2SF (x + nan)), add_spec.
  change (Prim2SF nan) with S754_nan. unfold SF64add, SFadd.
  by destruct (Prim2SF x).
Qed.

Lemma sub_nan (x : float) : (x - nan)%float = nan.
Proof.
  rewrite <- (SF2Prim_Prim2SF (x - nan)), sub_spec.
  change (Prim2SF nan) with S754_nan. unfold SF64sub, SFsub.
  by destruct (Prim2SF x).
Qed.

(** X13. A NaN size is not stopped by the minimum-shares rule, whatever
    [scale_ratio] and [min_shares] are ([NaN < x] is false).  When the event
    also passes the other two rules it is executed, for every side: the
    token's position becomes NaN, and a NaN position is not counted as open
    by the summary ([abs(NaN) > 0.0001] is false). *)
Theorem nan_size_is_copied (r : Row.t) (u : float) (log : list Entry.t)
    (w : World) :
  Row.whale_shares r = VFloat nan →
  Row.whale_usd r = VFloat u →
  gtb (u * scale_ratio (self w)) (max_position_usd (self w)) = false →
  gtb (samples (np_random w) (drawn (np_random w)))
      (copy_probability (self w)) = false →
  ∃ en w',
    loop_body r log w = (Ok (log ++ [en]), w')
    ∧ Entry.action en = EXECUTED
    ∧ Entry.our_shares en = Float nan
    ∧ position_of (self w') (Row.token_id r) = nan
    ∧ is_open (position_of (self w') (Row.token_id r)) = false.
Proof.
  intros Hs Hu H2 H3.
  destruct (loop_body_numeric r log w nan u Hs Hu) as (en & w' & E & P).
  assert (X : executed en = true).
  { rewrite (pass_verdict _ _ _ _ _ _ P). unfold verdict, evaluate.
    by rewrite nan_mul, nan_not_below, H2, H3. }
  destruct (pass_copied _ _ _ _ _ _ P X) as (Hour & _ & _ & Hpos).
  assert (Hnan : position_of (self w') (Row.token_id r) = nan).
  { unfold position_of at 1. rewrite Hpos, lookup_insert_eq. simpl.
    unfold apply_side. rewrite nan_mul.
    destruct (String.eqb _ _); [apply add_nan|apply sub_nan]. }
  exists en, w'. split; [done|]. split.
  { unfold executed in X. by destruct (Entry.action en). }
  split; [by rewrite Hour, nan_mul|]. split; [done|].
  by rewrite Hnan.
Qed.

Lemma nan_size_is_copied_witness :
  Row.whale_shares (buy 1 token_a nan 50 0.5) = VFloat nan
  ∧ Row.whale_usd (buy 1 token_a nan 50 0.5) = VFloat 50
  ∧ gtb (50 * scale_ratio (engine 1 10 1000 1))
        (max_position_usd (engine 1 10 1000 1)) = false
  ∧ gtb (samples (constant_generator 0.5) 0)
        (copy_probability (engine 1 10 1000 1)) = false
  ∧ ∃ en w',
    loop_body (buy 1 token_a nan 50 0.5) []
      (start (engine 1 10 1000 1) (constant_generator 0.5))
    = (Ok ([] ++ [en]), w')
    ∧ Entry.action en = EXECUTED
    ∧ Entry.our_shares en = Float nan
    ∧ position_of (self w') (Row.token_id (buy 1 token_a nan 50 0.5)) = nan
    ∧ is_open (position_of (self w')
                 (Row.token_id (buy 1 token_a nan 50 0.5))) = false.
Proof.
  split; [reflexivity|]. split; [reflexivity|]. split; [reflexivity|].
  split; [reflexivity|].
  apply (nan_size_is_copied (buy 1 token_a nan 50 0.5) 50 []
           (start (engine 1 10 1000 1) (constant_generator 0.5)));
    reflexivity.
Defined.

(** ** [load_trades], [print_results] and [main] *)

(** X14. The query [load_trades] sends has exactly as many [?] placeholders
    as it passes parameters, for every [days]; and [days = 0] is read as no
    limit at all: it loads what [days = None] loads. *)
Theorem load_trades_binds_every_placeholder `{Outside}
    (db_path : string) (days : option Z) :
  placeholders (load_trades_query days).1 = length (load_trades_query days).2
  ∧ load_trades db_path (Some 0%Z) = load_trades db_path None.
Proof. by destruct days as [[|d|d]|]. Qed.

(** X15. Without a database file, or when the database returns no row,
    [main] ends with exit status 1: it has written to standard error only,
    built no engine and drawn no sample. *)
Theorem main_stops_without_a_frame `{Pandas} `{Outside} `{Dict}
    (args : Args.t) (g : Generator) :
  path_exists (Args.db args) = false
  ∨ load_trades (path_str (Args.db args)) (Args.days args) = [] →
  ∃ out,
    main args g = (out, SystemExit 1, g) ∧ forallb to_stderr out = true.
Proof.
  unfold main. intros [Hno|Hempty].
  - rewrite Hno. simpl. by eexists.
  - destruct (path_exists _); simpl; [|by eexists].
    rewrite Hempty. by eexists.
Qed.

Lemma main_stops_without_a_frame_witness :
  (@path_exists no_database (Args.db (default_args "text" false)) = false
   ∨ @load_trades no_database
       (@path_str no_database (Args.db (default_args "text" false)))
       (Args.days (default_args "text" false)) = [])
  ∧ ∃ out,
    @main stable_pandas no_database
      {| items := map_to_list; items_perm := λ m, Permutation_refl _ |}
      (default_args "text" false) (constant_generator 0.5)
    = (out, SystemExit 1, constant_generator 0.5)
    ∧ forallb to_stderr out = true.
Proof.
  split; [by left|].
  apply (@main_stops_without_a_frame stable_pandas no_database). by left.
Defined.

Lemma summary_rate_is_a_float e (n : nat) log res :
  n ≠ 0 → summary e (Z.of_nat n) log = Ok res →
  ∃ x, Result.execution_rate res = Float x.
Proof.
  intros Hn. unfold summary, int_truediv.
  destruct (Z.ltb_spec 0 (Z.of_nat n)); [|lia].
  destruct (Z.eqb_spec (Z.of_nat n) 0); [lia|].
  intros [= <-]. by eexists.
Qed.

(** X16. On a non-empty frame of numbers, with JSON output or without
    [--verbose], [main] returns normally.  It runs a fresh engine built from
    the arguments, so the result it prints has [trades_executed +
    trades_skipped] equal to [total_whale_trades], the number of rows
    loaded, and an execution rate that is a float (the [0] of the empty
    frame is out of reach); the JSON carries the execution log only with
    [--verbose]. *)
Theorem main_reports_a_fresh_run `{Pandas} `{Outside} `{Dict}
    (args : Args.t) (g : Generator) (df : list Row.t) :
  path_exists (Args.db args) = true →
  load_trades (path_str (Args.db args)) (Args.days args) = df →
  df ≠ [] →
  forallb Row.numeric df = true →
  String.eqb (Args.format args) "json" || negb (Args.verbose args) = true →
  ∃ res w,
    run_backtest df
      (start (mkEngine (Args.scale args) (Args.min_shares args)
                (Args.max_position args) (Args.probability args) ∅ 0 0 0 ∅) g)
    = (Ok res, w)
    ∧ main args g
      = ([Stderr_loading (path_str (Args.db args));
          Stderr_loaded (length df); Stderr_running]
         ++ (if String.eqb (Args.format args) "json"
             then [Stdout_json res (Args.verbose args)]
             else Stdout <$> header_lines res),
         Returns, np_random w)
    ∧ Result.total_whale_trades res = Z.of_nat (length df)
    ∧ (Result.trades_executed res + Result.trades_skipped res
       = Result.total_whale_trades res)%Z
    ∧ ∃ x, Result.execution_rate res = Float x.
Proof.
  intros Hex Hload Hne Hnum Hfmt.
  set (w0 := start (mkEngine (Args.scale args) (Args.min_shares args)
                      (Args.max_position args) (Args.probability args)
                      ∅ 0 0 0 ∅) g).
  destruct (run_backtest_numeric df w0 Hnum)
    as (log & w & res & _ & R & Erun & Ht & Hx & Hk & _).
  exists res, w. split; [exact Erun|].
  assert (Hsum : (Result.trades_executed res + Result.trades_skipped res
                  = Result.total_whale_trades res)%Z).
  { rewrite Ht, Hx, Hk, (replay_counters _ _ _ _ R).
    rewrite (Permutation_length (sort_values_perm df)). simpl. lia. }
  assert (Hrate : ∃ x, Result.execution_rate res = Float x).
  { destruct (run_backtest_inv _ _ _ _ Erun) as (log' & _ & S).
    apply summary_rate_is_a_float in S; [done|].
    rewrite (Permutation_length (sort_values_perm df)). by destruct df. }
  split; [|by repeat split].
  unfold main. rewrite Hex, Hload. simpl.
  destruct df as [|r df]; [done|].
  fold w0. rewrite Erun.
  destruct (String.eqb (Args.format args) "json"); [done|].
  simpl in Hfmt. apply negb_true_iff in Hfmt. rewrite Hfmt.
  unfold print_results, position_lines. simpl. by rewrite app_nil_r.
Qed.

Lemma main_reports_a_fresh_run_witness :
  @path_exists sample_database (Args.db (default_args "json" false)) = true
  ∧ @load_trades sample_database
      (@path_str sample_database (Args.db (default_args "json" false)))
      (Args.days (default_args "json" false)) = sample_feed
  ∧ sample_feed ≠ []
  ∧ forallb Row.numeric sample_feed = true
  ∧ String.eqb (Args.format (default_args "json" false)) "json"
    || negb (Args.verbose (default_args "json" false)) = true
  ∧ ∃ res w,
    @run_backtest stable_pandas sample_feed
      (start (mkEngine 1 10 1000 1 ∅ 0 0 0 ∅) (constant_generator 0.5))
    = (Ok res, w)
    ∧ @main stable_pandas sample_database
        {| items := map_to_list; items_perm := λ m, Permutation_refl _ |}
        (default_args "json" false) (constant_generator 0.5)
      = ([Stderr_loading "../trades.db"; Stderr_loaded 3; Stderr_running]
         ++ [Stdout_json res false],
         Returns, np_random w)
    ∧ Result.total_whale_trades res = 3%Z
    ∧ (Result.trades_executed res + Result.trades_skipped res
       = Result.total_whale_trades res)%Z
    ∧ ∃ x, Result.execution_rate res = Float x.
Proof.
  split; [reflexivity|]. split; [reflexivity|]. split; [discriminate|].
  split; [reflexivity|]. split; [reflexivity|].
  apply (@main_reports_a_fresh_run stable_pandas sample_database
           {| items := map_to_list; items_perm := λ m, Permutation_refl _ |}
           (default_args "json" false) (constant_generator 0.5) sample_feed);
    try reflexivity. discriminate.
Defined.

Lemma trade_lines_ok (trades : list Entry.t) :
  (trade_lines trades).2 = None
  ↔ Forall (λ en, executed en = true → is_float (Entry.price en) = true) trades.
Proof.
  induction trades as [|en trades IH]; simpl; [by split|].
  rewrite Forall_cons, <- IH. unfold trade_line, executed.
  destruct (Entry.action en), (Entry.price en),
    (trade_lines trades) as [ls err]; simpl; intuition done.
Qed.

(** X17. [print_results] cannot fail without [verbose].  With [verbose] it
    completes exactly when every [EXECUTED] trade among the last ten of the
    log it is given has a number as its price: formatting the price of such
    a trade is the only step that can raise, and the price of a skipped
    trade is never looked at. *)
Theorem print_results_fails_only_on_an_executed_price `{Dict}
    (results : Result.t) :
  (print_results results false).2 = None
  ∧ ((print_results results true).2 = None
     ↔ Forall (λ en, executed en = true → is_float (Entry.price en) = true)
         (last_items 10 (Result.execution_log results))).
Proof.
  split; [done|]. unfold print_results.
  destruct (Result.execution_log results) as [|en log] eqn:E.
  - by split.
  - rewrite <- trade_lines_ok. by destruct (trade_lines _).
Qed.

Lemma last_items_last_items {A} (n m : nat) (l : list A) :
  n ≤ m → last_items n (last_items m l) = last_items n l.
Proof.
  intros Hnm. unfold last_items.
  rewrite drop_drop, length_drop. f_equal. lia.
Qed.

(** X18. The trades [print_results] shows for a run are the last ten events
    of the whole frame, in timestamp order: the twenty the result keeps
    always contain them.  On a non-empty frame of numbers, the verbose output
    is the header, the position details, the title line and the lines of the
    last ten entries the loop logged. *)
Theorem recent_trades_are_the_last_ten_events `{Pandas} `{Dict}
    (feed : list Row.t) (w : World) :
  forallb Row.numeric feed = true →
  feed ≠ [] →
  ∃ log res w',
    for_rows (sort_values feed) [] w = (Ok log, w')
    ∧ run_backtest feed w = (Ok res, w')
    ∧ Forall2 logged_as (sort_values feed) log
    ∧ print_results res true
      = (header_lines res ++ position_lines res true
         ++ Line_recent_trades :: (trade_lines (last_items 10 log)).1,
         (trade_lines (last_items 10 log)).2).
Proof.
  intros Hnum Hne.
  destruct (run_backtest_numeric feed w Hnum)
    as (log & w' & res & E & R & Erun & _ & _ & _ & _ & Hl).
  exists log, res, w'. repeat split; try done.
  - by apply replay_logged in R.
  - assert (Hlen : length log ≠ 0).
    { rewrite (replay_length _ _ _ _ R),
        (Permutation_length (sort_values_perm feed)). by destruct feed. }
    unfold print_results. rewrite Hl, last_items_last_items by lia.
    destruct (last_items 20 log) as [|en l] eqn:E20.
    + apply (f_equal length) in E20. unfold last_items in E20.
      rewrite length_drop in E20. simpl in E20. lia.
    + destruct (trade_lines (last_items 10 log)). by rewrite <- app_assoc.
Qed.

Lemma recent_trades_are_the_last_ten_events_witness :
  forallb Row.numeric sample_feed = true
  ∧ sample_feed ≠ []
  ∧ ∃ log res w',
    @for_rows (@sort_values stable_pandas sample_feed) []
      (start (engine 1 10 1000 1) (constant_generator 0.5)) = (Ok log, w')
    ∧ @run_backtest stable_pandas sample_feed
        (start (engine 1 10 1000 1) (constant_generator 0.5)) = (Ok res, w')
    ∧ Forall2 logged_as (@sort_values stable_pandas sample_feed) log
    ∧ @print_results
        {| items := map_to_list; items_perm := λ m, Permutation_refl _ |}
        res true
      = (header_lines res
         ++ @position_lines
              {| items := map_to_list; items_perm := λ m, Permutation_refl _ |}
              res true
         ++ Line_recent_trades :: (trade_lines (last_items 10 log)).1,
         (trade_lines (last_items 10 log)).2).
Proof.
  split; [reflexivity|]. split; [discriminate|].
  apply (@recent_trades_are_the_last_ten_events stable_pandas
           {| items := map_to_list; items_perm := λ m, Permutation_refl _ |}
           sample_feed (start (engine 1 10 1000 1) (constant_generator 0.5)));
    [reflexivity | discriminate].
Defined.

Lemma trade_lines_fail (trades : list Entry.t) :
  existsb (λ en, executed en && negb (is_float (Entry.price en))) trades = true →
  ∃ e, (trade_lines trades).2 = Some e.
Proof.
  intros Hbad. destruct (trade_lines trades).2 as [e|] eqn:E; [by eexists|].
  apply trade_lines_ok in E. apply existsb_exists in Hbad as (en & Hin & Hen).
  apply andb_true_iff in Hen as [Hx Hp].
  rewrite List.Forall_forall in E. rewrite (E en Hin Hx) in Hp. done.
Qed.

(** X19. The price of an event is never used by the engine, so an event
    whose price is missing or a string can be executed; the verbose text
    report then fails on it.  When the run [main] makes succeeds and one of
    the last ten entries of its log is an executed trade whose price is no
    number, [main] with [--verbose] and text output ends in an uncaught
    formatting error, after the run and after printing the lines that come
    before that trade. *)
Theorem verbose_report_fails_on_a_missing_price `{Pandas} `{Outside} `{Dict}
    (args : Args.t) (g : Generator) :
  let df := load_trades (path_str (Args.db args)) (Args.days args) in
  let run :=
    run_backtest df
      (start (mkEngine (Args.scale args) (Args.min_shares args)
                (Args.max_position args) (Args.probability args) ∅ 0 0 0 ∅) g) in
  path_exists (Args.db args) = true →
  String.eqb (Args.format args) "json" = false →
  Args.verbose args = true →
  match run.1 with
  | Ok res =>
      existsb (λ en, executed en && negb (is_float (Entry.price en)))
        (last_items 10 (Result.execution_log res))
  | Raise _ => false
  end = true →
  ∃ res e,
    run.1 = Ok res
    ∧ (print_results res true).2 = Some e
    ∧ main args g
      = ([Stderr_loading (path_str (Args.db args));
          Stderr_loaded (length df); Stderr_running]
         ++ (Stdout <$> (print_results res true).1),
         Uncaught_format e, np_random run.2).
Proof.
  intros df run Hex Hfmt Hv Hbad. subst run.
  destruct (run_backtest df _) as [[res|x] w] eqn:R; simpl in Hbad; [|done].
  destruct (trade_lines_fail _ Hbad) as (e & He).
  assert (Hlog : Result.execution_log res ≠ []).
  { intros Hnil. by rewrite Hnil in Hbad. }
  assert (Hp : (print_results res true).2 = Some e).
  { unfold print_results.
    destruct (Result.execution_log res) as [|en l]; [done|].
    by destruct (trade_lines _). }
  exists res, e. split; [done|]. split; [done|].
  assert (Hdf : df ≠ []).
  { intros Hnil. rewrite Hnil in R.
    destruct (run_backtest_inv _ _ _ _ R) as (log & E & S).
    rewrite sort_values_nil in E. injection E as <- _.
    apply summary_inv in S. by destruct S as (_ & _ & _ & _ & _ & _ & _ & Hl). }
  destruct (print_results res true) as [ls err] eqn:P. simpl in Hp. subst err.
  unfold main. rewrite Hex. simpl. fold df.
  destruct df as [|r l] eqn:Edf; [done|].
  by rewrite R, Hfmt, Hv, P.
Qed.

Lemma verbose_report_fails_on_a_missing_price_witness :
  @path_exists unpriced_database (Args.db (default_args "text" true)) = true
  ∧ String.eqb (Args.format (default_args "text" true)) "json" = false
  ∧ Args.verbose (default_args "text" true) = true
  ∧ match
      (@run_backtest stable_pandas
       (@load_trades unpriced_database
          (@path_str unpriced_database (Args.db (default_args "text" true)))
          (Args.days (default_args "text" true)))
       (start (mkEngine 1 10 1000 1 ∅ 0 0 0 ∅) (constant_generator 0.5))).1
    with
    | Ok res =>
        existsb (λ en, executed en && negb (is_float (Entry.price en)))
          (last_items 10 (Result.execution_log res))
    | Raise _ => false
    end = true
  ∧ ∃ res e,
    (@run_backtest stable_pandas
       (@load_trades unpriced_database
          (@path_str unpriced_database (Args.db (default_args "text" true)))
          (Args.days (default_args "text" true)))
       (start (mkEngine 1 10 1000 1 ∅ 0 0 0 ∅) (constant_generator 0.5))).1
    = Ok res
    ∧ (@print_results {| items := map_to_list; items_perm := λ m, Permutation_refl _ |} res true).2 = Some e
    ∧ @main stable_pandas unpriced_database {| items := map_to_list; items_perm := λ m, Permutation_refl _ |}
        (default_args "text" true) (constant_generator 0.5)
      = ([Stderr_loading "../trades.db"; Stderr_loaded 1; Stderr_running]
         ++ (Stdout <$> (@print_results {| items := map_to_list; items_perm := λ m, Permutation_refl _ |} res true).1),
         Uncaught_format e,
         np_random
           (@run_backtest stable_pandas
       (@load_trades unpriced_database
          (@path_str unpriced_database (Args.db (default_args "text" true)))
          (Args.days (default_args "text" true)))
       (start (mkEngine 1 10 1000 1 ∅ 0 0 0 ∅) (constant_generator 0.5))).2).
Proof.
  split; [reflexivity|]. split; [reflexivity|]. split; [reflexivity|].
  split; [vm_compute; reflexivity|].
  apply (@verbose_report_fails_on_a_missing_price stable_pandas
           unpriced_database {| items := map_to_list; items_perm := λ m, Permutation_refl _ |}
           (default_args "text" true) (constant_generator 0.5));
    reflexivity.
Defined.
